(** * Run/instance resolution and ephemeral execution of the task commands

    A shallow embedding of [airflow/cli/commands/task_command.py]:
    [_generate_temporary_run_id], [_get_dag_run], [_get_ti], [_guess_debugger]
    and [task_test], together with the properties the specification states
    about them.

    Python objects are records, [None]-able values are options, exceptions
    are values of [exn], and the ambient state the commands read and write
    (the metadata database, [os.environ], the task logger, the clock) is an
    explicit [World] threaded through a state-and-exception monad in which,
    as in Python, the state written before an exception is raised survives
    it. *)

From Stdlib Require Import ZArith Lia Ascii String DecimalString DecimalZ Sorted.
From stdpp Require Import base option strings list gmap.

Local Open Scope string_scope.
Local Open Scope Z_scope.

(** ** Instants

    [datetime.datetime] values in UTC, with the fields Python keeps. *)

Module Datetime.

Record datetime := mk_datetime {
  year : Z;
  month : Z;
  day : Z;
  hour : Z;
  minute : Z;
  second : Z;
  microsecond : Z
}.

#[global] Instance datetime_eq_dec : EqDecision datetime.
Proof. solve_decision. Defined.

(** The ranges the [datetime] constructor enforces. *)
Definition valid (d : datetime) : Prop :=
  1 <= year d <= 9999 /\ 1 <= month d <= 12 /\ 1 <= day d <= 31 /\
  0 <= hour d < 24 /\ 0 <= minute d < 60 /\ 0 <= second d < 60 /\
  0 <= microsecond d < 1000000.

(** One decimal digit as a character. *)
Definition digit (d : Z) : ascii := ascii_of_N (Z.to_N (48 + d)).

(** [zpad w n] is Python's ["%0wd" % n] for [0 <= n < 10 ^ w]: the [w] low
    decimal digits of [n], most significant first. *)
Fixpoint zpad (w : nat) (n : Z) : string :=
  match w with
  | O => EmptyString
  | S k => String (digit ((n / 10 ^ Z.of_nat k) mod 10)) (zpad k (n mod 10 ^ Z.of_nat k))
  end.

(** [datetime.isoformat()] of an aware UTC instant:
    [YYYY-MM-DDTHH:MM:SS+00:00], with [.ffffff] after the seconds when the
    microsecond field is not zero. *)
Definition isoformat (d : datetime) : string :=
  zpad 4 (year d) +:+ "-" +:+ zpad 2 (month d) +:+ "-" +:+ zpad 2 (day d) +:+ "T" +:+
  zpad 2 (hour d) +:+ ":" +:+ zpad 2 (minute d) +:+ ":" +:+ zpad 2 (second d) +:+
  (if decide (microsecond d = 0) then "" else "." +:+ zpad 6 (microsecond d)) +:+
  "+00:00".

(** Proleptic Gregorian ordinal of a date, as [datetime.toordinal]. *)
Definition is_leap (y : Z) : bool :=
  (y mod 4 =? 0) && ((negb (y mod 100 =? 0)) || (y mod 400 =? 0)).

Definition days_before_year (y : Z) : Z :=
  let p := y - 1 in p * 365 + p / 4 - p / 100 + p / 400.

Definition days_in_month (y m : Z) : Z :=
  if m =? 2 then (if is_leap y then 29 else 28)
  else if (m =? 4) || (m =? 6) || (m =? 9) || (m =? 11) then 30 else 31.

Fixpoint days_before_month_aux (y : Z) (k : nat) : Z :=
  match k with
  | O => 0
  | S j => days_before_month_aux y j + days_in_month y (Z.of_nat k)
  end.

Definition days_before_month (y m : Z) : Z :=
  days_before_month_aux y (Z.to_nat (m - 1)).

Definition toordinal (d : datetime) : Z :=
  days_before_year (year d) + days_before_month (year d) (month d) + day d.

(** Microseconds from the start of day 0 of the ordinal count. *)
Definition to_microseconds (d : datetime) : Z :=
  (((toordinal d * 24 + hour d) * 60 + minute d) * 60 + second d) * 1000000
  + microsecond d.

(** [a - b] in microseconds, the resolution of [datetime.timedelta]. *)
Definition delta_us (a b : datetime) : Z := to_microseconds a - to_microseconds b.

End Datetime.

Import Datetime.

(** ** Data model *)

(** [DataInterval(start, end)] of the timetable. *)
Record DataInterval := mk_interval {
  di_start : datetime;
  di_end : datetime
}.

Inductive DagRunState := QUEUED | RUNNING | SUCCESS | FAILED.
Inductive DagRunType := MANUAL | SCHEDULED.
Inductive DagRunTriggeredByType := CLI | OTHER_CHANNEL.

(** [State.FAILED], the task-instance state [task_test] tests for. *)
Definition State_FAILED : string := "failed".

(** What [create_if_necessary] ranges over: [Literal[False, "db", "memory"]]. *)
Inductive CreateIfNecessary := create_False | create_db | create_memory.

Definition creation_allowed (c : CreateIfNecessary) : bool :=
  match c with create_False => false | _ => true end.

(** A task definition as the workflow's task mapping holds it. *)
Record TaskDef := mk_taskdef {
  td_task_id : string;
  td_needs_expansion : bool;
  td_pool : string;
  td_params : gmap string string;
  td_params_is_ParamsDict : bool
}.

(** A workflow definition: [dag.dag_id], the tasks of [dag.task_dict] in
    insertion order, each under its own [task_id], and
    [dag.timetable.infer_manual_data_interval]. *)
Record DAG := mk_dag {
  dag_id : string;
  task_dict : list TaskDef;
  infer_manual_data_interval : datetime -> DataInterval
}.

(** An operator: a task definition and the workflow it is assigned to
    ([task.dag], [None] until assigned). *)
Record Operator := mk_operator {
  op_def : TaskDef;
  op_dag : option DAG
}.

Definition task_id (t : Operator) : string := td_task_id (op_def t).
Definition get_needs_expansion (t : Operator) : bool := td_needs_expansion (op_def t).

(** A run record. [dr_run_id] is an option because [_get_dag_run] builds the
    in-memory record with whatever it was given, [None] included. *)
Record DagRun := mk_dagrun {
  dr_dag_id : string;
  dr_run_id : option string;
  dr_run_type : DagRunType;
  dr_logical_date : option datetime;
  dr_data_interval : option DataInterval;
  dr_run_after : datetime;
  dr_triggered_by : DagRunTriggeredByType;
  dr_triggering_user_name : option string;
  dr_state : DagRunState;
  dr_start_date : option datetime
}.

(** A task-instance record. [ti_task] and [ti_dag_run] are the object's
    references to the task definition and the owning run; they are not
    columns and a row read back from the store has them unset. *)
Record TaskInstance := mk_ti {
  ti_task_id : string;
  ti_dag_id : string;
  ti_run_id : option string;
  ti_map_index : Z;
  ti_dag_version_id : Z;
  ti_state : option string;
  ti_pool : string;
  ti_task : option Operator;
  ti_dag_run : option DagRun
}.

Record DagVersion := mk_dagversion {
  dv_dag_id : string;
  dv_id : Z
}.

(** A handler of the [airflow.task] logger; [is_stream_handler] is
    [isinstance(handler, logging.StreamHandler)]. *)
Record Handler := mk_handler {
  handler_name : string;
  is_stream_handler : bool
}.

(** ** Exceptions *)

Inductive exn :=
| ValueError (msg : string)
| RuntimeError (msg : string)
| DagRunNotFound (dag value : string)
| TaskInstanceNotFound (dag task : string) (map_index : Z) (value : option string)
| ImportError (module_name : string)
| AirflowConfigException (msg : string)
| OtherError (kind detail : string).

(** ** The world the commands run in *)

Record World := mk_world {
  dag_runs : list DagRun;                (* the run table *)
  task_instances : list TaskInstance;    (* the task-instance table *)
  dag_versions : list DagVersion;        (* published versions, oldest first *)
  environ : gmap string string;          (* os.environ *)
  MASK_SECRETS_IN_LOGS : bool;           (* settings.MASK_SECRETS_IN_LOGS *)
  task_logger_handlers : list Handler;   (* logging.getLogger("airflow.task").handlers *)
  task_logger_propagate : bool;          (* logging.getLogger("airflow.task").propagate *)
  os_user : option string;               (* what getuser() finds; None: it raises *)
  clock_reads : nat                      (* how often the clock was read *)
}.

Definition set_dag_runs (rs : list DagRun) (w : World) : World :=
  mk_world rs (task_instances w) (dag_versions w) (environ w) (MASK_SECRETS_IN_LOGS w)
    (task_logger_handlers w) (task_logger_propagate w) (os_user w) (clock_reads w).

Definition set_task_instances (tis : list TaskInstance) (w : World) : World :=
  mk_world (dag_runs w) tis (dag_versions w) (environ w) (MASK_SECRETS_IN_LOGS w)
    (task_logger_handlers w) (task_logger_propagate w) (os_user w) (clock_reads w).

Definition set_environ (e : gmap string string) (w : World) : World :=
  mk_world (dag_runs w) (task_instances w) (dag_versions w) e (MASK_SECRETS_IN_LOGS w)
    (task_logger_handlers w) (task_logger_propagate w) (os_user w) (clock_reads w).

Definition set_mask_secrets (b : bool) (w : World) : World :=
  mk_world (dag_runs w) (task_instances w) (dag_versions w) (environ w) b
    (task_logger_handlers w) (task_logger_propagate w) (os_user w) (clock_reads w).

Definition set_propagate (b : bool) (w : World) : World :=
  mk_world (dag_runs w) (task_instances w) (dag_versions w) (environ w) (MASK_SECRETS_IN_LOGS w)
    (task_logger_handlers w) b (os_user w) (clock_reads w).

Definition set_clock_reads (n : nat) (w : World) : World :=
  mk_world (dag_runs w) (task_instances w) (dag_versions w) (environ w) (MASK_SECRETS_IN_LOGS w)
    (task_logger_handlers w) (task_logger_propagate w) (os_user w) n.

(** ** A state-and-exception monad

    A computation takes the world and gives the world it leaves behind with
    either the exception it raised or its value. *)

Definition M (A : Type) : Type := World -> World * (exn + A).

Definition ret {A} (a : A) : M A := fun w => (w, inr a).
Definition raise {A} (e : exn) : M A := fun w => (w, inl e).

Definition bind {A B} (m : M A) (f : A -> M B) : M B :=
  fun w => match m w with
           | (w', inr a) => f a w'
           | (w', inl e) => (w', inl e)
           end.

(** [try: body finally: cleanup]: the cleanup runs on every exit of the body;
    the body's outcome stands unless the cleanup itself raises. *)
Definition try_finally {A} (body : M A) (cleanup : M unit) : M A :=
  fun w => let '(w1, r) := body w in
           match cleanup w1 with
           | (w2, inr _) => (w2, r)
           | (w2, inl e) => (w2, inl e)
           end.

(** [try: body except E: handler], [handles e] giving the handler of the
    exceptions the [except] clause catches. *)
Definition try_except {A} (body : M A) (handles : exn -> option (M A)) : M A :=
  fun w => match body w with
           | (w1, inl e) => match handles e with
                            | Some h => h w1
                            | None => (w1, inl e)
                            end
           | (w1, inr a) => (w1, inr a)
           end.

Definition get_world : M World := fun w => (w, inr w).
Definition modify (f : World -> World) : M unit := fun w => (f w, inr tt).
Definition when (b : bool) (m : M unit) : M unit := if b then m else ret tt.
Definition lift_result {A} (r : exn + A) : M A := fun w => (w, r).

#[global] Instance M_ret : MRet M := @ret.
#[global] Instance M_bind : MBind M := fun A B f m => bind m f.

(** A computation that leaves [os.environ] as it found it. *)
Definition keeps_environ {A} (m : M A) : Prop :=
  forall w, environ (m w).1 = environ w.

(** Python truthiness of [str | None]: [None] and the empty string are falsy. *)
Definition truthy (s : option string) : bool :=
  match s with
  | Some s => negb (String.eqb s "")
  | None => false
  end.

#[global] Instance DataInterval_eq_dec : EqDecision DataInterval.
Proof. solve_decision. Defined.

(** ** What the commands consume from outside this module *)

Record Platform := mk_platform {
  (* timezone.parse: the instant a string denotes, None when it raises ParserError *)
  parse : string -> option datetime;
  (* the instant the k-th reading of the clock gives *)
  wall_clock : nat -> datetime;
  (* SerializedDAG.deserialize_dag (SerializedDAG.serialize_dag dag) *)
  serialization_round_trip : DAG -> DAG;
  (* the kind and lifecycle state the store gives a run it creates *)
  store_run_type : DagRunType;
  store_run_state : DagRunState;
  (* get_dag (bundle_name, dag_id) *)
  get_dag : option string -> string -> exn + DAG;
  (* json.loads of the task parameters given on the command line *)
  json_loads : string -> exn + gmap string string;
  (* ParamsDict.validate: the exception it raises, if any *)
  params_validate : gmap string string -> option exn;
  (* the task body: what it does to the world, and the state it leaves the
     instance in or the exception it raises *)
  _run_task : TaskInstance -> M (option string);
  (* importlib.import_module succeeds for this module name *)
  importable : string -> bool;
  (* the breakpoint entry point of the debugger module of that name *)
  set_trace : string -> M unit
}.

(** ** The store, as the commands use it *)

Definition run_has_id (d value : string) (r : DagRun) : bool :=
  bool_decide (dr_dag_id r = d /\ dr_run_id r = Some value).

Definition run_has_logical_date (d : string) (t : datetime) (r : DagRun) : bool :=
  bool_decide (dr_dag_id r = d /\ dr_logical_date r = Some t).

Definition same_run (a b : DagRun) : bool :=
  bool_decide (dr_dag_id a = dr_dag_id b /\ dr_run_id a = dr_run_id b).

Definition ti_matches (d : string) (run : option string) (task : string) (map_index : Z)
    (ti : TaskInstance) : bool :=
  bool_decide (ti_dag_id ti = d /\ ti_run_id ti = run /\ ti_task_id ti = task /\
               ti_map_index ti = map_index).

Definition same_row (a b : TaskInstance) : bool :=
  ti_matches (ti_dag_id a) (ti_run_id a) (ti_task_id a) (ti_map_index a) b.

(** The columns of an instance: a row does not hold object references. *)
Definition row_of (ti : TaskInstance) : TaskInstance :=
  mk_ti (ti_task_id ti) (ti_dag_id ti) (ti_run_id ti) (ti_map_index ti)
    (ti_dag_version_id ti) (ti_state ti) (ti_pool ti) None None.

Definition with_dag_run (dr : DagRun) (ti : TaskInstance) : TaskInstance :=
  mk_ti (ti_task_id ti) (ti_dag_id ti) (ti_run_id ti) (ti_map_index ti)
    (ti_dag_version_id ti) (ti_state ti) (ti_pool ti) (ti_task ti) (Some dr).

(** Writing an instance the session tracks: its row is replaced if the table
    has it, appended otherwise. *)
Definition write_row (ti : TaskInstance) (rows : list TaskInstance) : list TaskInstance :=
  if existsb (same_row ti) rows
  then map (fun r => if same_row ti r then row_of ti else r) rows
  else rows ++ [row_of ti].

Section Commands.

Context (P : Platform).

(** [timezone.utcnow()]: one more reading of the clock. *)
Definition utcnow : M datetime :=
  fun w => (set_clock_reads (S (clock_reads w)) w, inr (wall_clock P (clock_reads w))).

(** [getuser()]: raises [AirflowConfigException] when the operating system
    has no name for the user. *)
Definition getuser : M string :=
  w ← get_world;
  match os_user w with
  | Some u => ret u
  | None => raise (AirflowConfigException "could not get user name")
  end.

(** [timezone.coerce_datetime]: the same instant (or [None]) as a
    timezone-aware value; instants here are UTC already. *)
Definition coerce_datetime (d : option datetime) : option datetime := d.

(** Modelled from the spec: [fetch_dag_run_from_run_id_or_logical_date_string]
    of [airflow.cli.utils] is not among the sources. The spec's
    IdentifierResolver tries, in order, the string as an existing run
    identifier, then as a parseable instant matching a run's logical
    instant; it returns the matching record and/or the parsed instant, and
    an empty result when there is no match and no parse. It only queries. *)
Definition fetch_dag_run_from_run_id_or_logical_date_string (d value : string)
    : M (option DagRun * option datetime) :=
  w ← get_world;
  match List.find (run_has_id d value) (dag_runs w) with
  | Some r => ret (Some r, None)
  | None =>
      match parse P value with
      | None => ret (None, None)
      | Some t => ret (List.find (run_has_logical_date d t) (dag_runs w), Some t)
      end
  end.

(** Modelled from the spec: [_get_or_create_dagrun] of [airflow.models.dag]
    is not among the sources. The spec's [get_or_create_run] atomically gets
    the run of that workflow and run identifier or creates it from the
    logical instant, interval, run-after instant and trigger metadata. *)
Definition _get_or_create_dagrun (dag : DAG) (run_id : string)
    (logical_date : option datetime) (data_interval : option DataInterval)
    (run_after : datetime) (triggered_by : DagRunTriggeredByType)
    (triggering_user_name : option string) (start_date : datetime) : M DagRun :=
  w ← get_world;
  match List.find (run_has_id (dag_id dag) run_id) (dag_runs w) with
  | Some r => ret r
  | None =>
      let r := mk_dagrun (dag_id dag) (Some run_id) (store_run_type P) logical_date
                 data_interval run_after triggered_by triggering_user_name
                 (store_run_state P) (Some start_date) in
      modify (fun w => set_dag_runs (dag_runs w ++ [r]) w);;
      ret r
  end.

(** Modelled from the spec: [session.delete(run)] is the store's
    [delete_run(run)]; the record of that workflow and run identifier is
    gone from the store afterwards. *)
Definition session_delete (dr : DagRun) : M unit :=
  modify (fun w => set_dag_runs (filter (fun r => same_run dr r = false) (dag_runs w)) w).

(** Modelled from the spec: [dag_run in session], whether the run is
    tracked by the session, that is, is a record of the store. *)
Definition in_session (dr : DagRun) : M bool :=
  w ← get_world; ret (existsb (same_run dr) (dag_runs w)).

(** Modelled from the spec: [DagRun.get_task_instance], the lookup of the
    existing instance for (run, task identifier, map index); the instance
    read has the run as its owning run. *)
Definition get_task_instance (dr : DagRun) (task : string) (map_index : Z)
    : M (option TaskInstance) :=
  w ← get_world;
  ret (with_dag_run dr <$>
       List.find (ti_matches (dr_dag_id dr) (dr_run_id dr) task map_index) (task_instances w)).

(** Modelled from the spec: [DagVersion.get_latest_version], the latest
    published version of the workflow, [None] when it has none. *)
Definition get_latest_version (d : string) : M (option DagVersion) :=
  w ← get_world;
  ret (last (filter (fun v => bool_decide (dv_dag_id v = d)) (dag_versions w))).

(** [task.dag_id] of an operator assigned to a workflow. *)
Definition op_dag_id (t : Operator) : string :=
  match op_dag t with Some d => dag_id d | None => "" end.

(** Modelled from the spec: the [TaskInstance] constructor, a new record for
    the task, run identifier and map index, bound to the given version, with
    no state yet. *)
Definition TaskInstance_new (task : Operator) (run_id : option string) (map_index : Z)
    (dag_version_id : Z) : TaskInstance :=
  mk_ti (task_id task) (op_dag_id task) run_id map_index dag_version_id None
    (td_pool (op_def task)) (Some task) None.

(** Modelled from the spec: [TaskInstance.refresh_from_task] re-binds the
    instance's task reference to the supplied definition and applies the
    pool override if one is given. *)
Definition refresh_from_task (task : Operator) (pool_override : option string)
    (ti : TaskInstance) : TaskInstance :=
  mk_ti (ti_task_id ti) (ti_dag_id ti) (ti_run_id ti) (ti_map_index ti)
    (ti_dag_version_id ti) (ti_state ti)
    (match pool_override with Some p => p | None => ti_pool ti end)
    (Some task) (ti_dag_run ti).

(** [session.add(ti)], and the write of a tracked instance when the scope
    that [provide_session] opened ends: the table has the instance's row. *)
Definition session_add (ti : TaskInstance) : M unit :=
  modify (fun w => set_task_instances (write_row ti (task_instances w)) w).

Definition session_commit (ti : TaskInstance) : M unit :=
  modify (fun w => set_task_instances (write_row ti (task_instances w)) w).

(** No run of workflow [d] in [runs] is denoted by [value], neither as its
    run identifier nor as its logical date. *)
Definition no_run_matches (d value : string) (runs : list DagRun) : Prop :=
  forall r, r ∈ runs -> dr_dag_id r = d ->
    dr_run_id r ≠ Some value /\
    (forall t, parse P value = Some t -> dr_logical_date r ≠ Some t).

(** ** The commands *)

(** [_generate_temporary_run_id]: a [run_id] for a run that is created
    temporarily. *)
Definition _generate_temporary_run_id : M string :=
  now ← utcnow;
  ret ("__airflow_temporary_run_" +:+ isoformat now +:+ "__").

(** [_get_dag_run]: the run a string denotes, as run identifier or as
    logical date, or a new one when [create_if_necessary] allows it. The
    boolean tells whether the run was created. *)
Definition _get_dag_run (dag : DAG) (create_if_necessary : CreateIfNecessary)
    (logical_date_or_run_id : option string) : M (DagRun * bool) :=
  if negb (truthy logical_date_or_run_id) && negb (creation_allowed create_if_necessary)
  then raise (ValueError "Must provide `logical_date_or_run_id` if not `create_if_necessary`.")
  else
    (* inl: the function returns here; inr: it goes on with this logical date *)
    found ← (match logical_date_or_run_id
             return M (DagRun * bool + option datetime) with
            | Some value =>
                if truthy (Some value) then
                  '(dag_run, logical_date) ←
                    fetch_dag_run_from_run_id_or_logical_date_string (dag_id dag) value;
                  match dag_run with
                  | Some r => ret (inl (r, false))
                  | None =>
                      if negb (creation_allowed create_if_necessary)
                      then raise (DagRunNotFound (dag_id dag) value)
                      else ret (inr logical_date)
                  end
                else ret (inr None)
            | None => ret (inr None)
            end);
    match found with
    | inl result => ret result
    | inr logical_date =>
        let dag_run_logical_date := coerce_datetime logical_date in
        let data_interval :=
          match dag_run_logical_date with
          | Some d => Some (infer_manual_data_interval dag d)
          | None => None
          end in
        run_after ← match data_interval with
                    | Some i => ret (di_end i)
                    | None => utcnow
                    end;
        user ← try_except (u ← getuser; ret (Some u))
                 (fun e => match e with
                           | AirflowConfigException _ => Some (ret None)  (* log.warning *)
                           | _ => None
                           end);
        match create_if_necessary with
        | create_memory =>
            let dag_run :=
              mk_dagrun (dag_id dag) logical_date_or_run_id MANUAL dag_run_logical_date
                data_interval run_after CLI user RUNNING None in
            ret (dag_run, true)
        | create_db =>
            let scheduler_dag := serialization_round_trip P dag in
            run_id ← _generate_temporary_run_id;
            dag_run ← _get_or_create_dagrun scheduler_dag run_id dag_run_logical_date
                        data_interval run_after CLI user
                        (match logical_date with Some d => d | None => run_after end);
            ret (dag_run, true)
        | create_False =>
            (* not reached: creation is allowed here *)
            raise (ValueError "unknown create_if_necessary value: False")
        end
    end.

(** Lines 196 to 223 of [_get_ti]: the instance of the task in the run that
    was resolved, found or created, then refreshed from the task. *)
Definition find_or_create_ti (task : Operator) (dag : DAG) (map_index : Z)
    (logical_date_or_run_id : option string) (pool : option string)
    (create_if_necessary : CreateIfNecessary) (dag_run : DagRun) : M TaskInstance :=
  ti_or_none ← get_task_instance dag_run (task_id task) map_index;
  '(ti, tracked) ←
    match ti_or_none with
    | None =>
        if negb (creation_allowed create_if_necessary)
        then raise (TaskInstanceNotFound (dag_id dag) (task_id task) map_index
                      logical_date_or_run_id)
        else
          dag_version ← get_latest_version (dag_id dag);
          match dag_version with
          | None =>
              raise (ValueError ("Cannot create TaskInstance for " +:+ dag_id dag +:+
                                 " because the Dag is not serialized."))
          | Some v =>
              let ti := TaskInstance_new task (dr_run_id dag_run) map_index (dv_id v) in
              tracked ← in_session dag_run;
              when tracked (session_add ti);;
              ret (with_dag_run dag_run ti, tracked)
          end
    | Some ti => ret (ti, true)
    end;
  let ti := refresh_from_task task pool ti in
  let ti := refresh_from_task task pool ti in
  (* ti.dag_model: the eager load changes nothing here *)
  when tracked (session_commit ti);;
  ret ti.

(** [_get_ti]: the task instance of a task in the run a string denotes, found
    or, when [create_if_necessary] allows it, created. *)
Definition _get_ti (task : Operator) (map_index : Z)
    (logical_date_or_run_id : option string) (pool : option string)
    (create_if_necessary : CreateIfNecessary) : M (TaskInstance * bool) :=
  match op_dag task with
  | None => raise (ValueError "Cannot get task instance for a task not assigned to a DAG")
  | Some dag =>
    if negb (bool_decide (task_id task ∈ (td_task_id <$> task_dict dag)))
    then raise (ValueError ("Provided task " +:+ task_id task +:+ " is not in dag '" +:+
                            dag_id dag +:+ "."))
    else if negb (truthy logical_date_or_run_id) && negb (creation_allowed create_if_necessary)
    then raise (ValueError "Must provide `logical_date_or_run_id` if not `create_if_necessary`.")
    else
      (if get_needs_expansion task
       then when (map_index <? 0) (raise (RuntimeError "No map_index passed to mapped task"))
       else when (0 <=? map_index) (raise (RuntimeError "map_index passed to non-mapped task")));;
      '(dag_run, dr_created) ← _get_dag_run dag create_if_necessary logical_date_or_run_id;
      ti ← find_or_create_ti task dag map_index logical_date_or_run_id pool
             create_if_necessary dag_run;
      ret (ti, dr_created)
  end.

Definition SUPPORTED_DEBUGGER_MODULES : list string :=
  ["pudb"; "web_pdb"; "pdbr"; "ipdb"; "pdb"].

(** The loop of [_guess_debugger]: the first module that imports; [exc] is
    the last [ImportError] seen, raised when the list is exhausted. *)
Fixpoint guess_from (mods : list string) (exc : exn) : exn + string :=
  match mods with
  | [] => inl exc
  | mod_name :: rest =>
      if importable P mod_name then inr mod_name
      else guess_from rest (ImportError mod_name)
  end.

Definition _guess_debugger : M string :=
  lift_result (guess_from SUPPORTED_DEBUGGER_MODULES
                 (OtherError "UnboundLocalError" "exc")).

(** The arguments [task_test] reads from [args]. *)
Record Args := mk_args {
  args_bundle_name : option string;
  args_dag_id : string;
  args_task_id : string;
  args_map_index : Z;
  args_logical_date_or_run_id : option string;
  args_env_vars : option (gmap string string);
  args_task_params : option string;
  args_post_mortem : bool
}.

(** The loop over the handlers of the task logger. *)
Fixpoint scan_handlers (handlers : list Handler) (already_has_stream_handler : bool) : bool :=
  match handlers with
  | [] => already_has_stream_handler
  | handler :: rest =>
      let already_has_stream_handler := is_stream_handler handler in
      if already_has_stream_handler then already_has_stream_handler
      else scan_handlers rest already_has_stream_handler
  end.

(** [dict.update]: the entries of [other] replace those of [d]. *)
Definition dict_update (d other : gmap string string) : gmap string string := other ∪ d.

(** Lines 378 to 381: the environment of the test run. *)
Definition merge_env_vars (args_env : option (gmap string string)) : M unit :=
  let env_vars : gmap string string := {[ "AIRFLOW_TEST_MODE" := "True" ]} in
  match args_env with
  | Some given =>
      if bool_decide (given = ∅) then ret tt
      else
        let env_vars := dict_update env_vars given in
        modify (fun w => set_environ (dict_update (environ w) env_vars) w)
  | None => ret tt
  end.

(** [dag.get_task(task_id)]. *)
Definition get_task (dag : DAG) (id : string) : M Operator :=
  match List.find (fun t => String.eqb (td_task_id t) id) (task_dict dag) with
  | Some t => ret (mk_operator t (Some dag))
  | None => raise (OtherError "TaskNotFound" id)
  end.

Definition with_params (params : gmap string string) (t : Operator) : Operator :=
  mk_operator
    (mk_taskdef (td_task_id (op_def t)) (td_needs_expansion (op_def t)) (td_pool (op_def t))
       params (td_params_is_ParamsDict (op_def t)))
    (op_dag t).

(** The body of the [try] of [task_test]: the task body, then the debugger
    when the instance failed and a post-mortem was asked for. *)
Definition task_test_body (args : Args) (ti : TaskInstance) : M unit :=
  (* with redirect_stdout(RedactedIO()) *)
  state ← _run_task P ti;
  if bool_decide (state = Some State_FAILED) && args_post_mortem args then
    debugger ← _guess_debugger;
    set_trace P debugger
  else ret tt.

(** The [finally] of [task_test]. *)
Definition task_test_cleanup (already_has_stream_handler : bool) (ti : TaskInstance)
    (dr_created : bool) : M unit :=
  when (negb already_has_stream_handler) (modify (set_propagate false));;
  when dr_created
    (* with create_session() as session *)
    (match ti_dag_run ti with
     | Some dr => session_delete dr
     | None => raise (OtherError "UnmappedInstanceError" "None")
     end).

(** What [task_test] does before the [try]: the logging and environment
    set-up, the task and its parameters, the instance. *)
Definition task_test_setup (args : Args) (dag : option DAG) : M (bool * TaskInstance * bool) :=
  modify (set_mask_secrets true);;
  w ← get_world;
  let already_has_stream_handler := scan_handlers (task_logger_handlers w) false in
  when (negb already_has_stream_handler) (modify (set_propagate true));;
  merge_env_vars (args_env_vars args);;
  dag ← match dag with
        | Some d => ret d
        | None => lift_result (get_dag P (args_bundle_name args) (args_dag_id args))
        end;
  task ← get_task dag (args_task_id args);
  task ← (if truthy (args_task_params args) then
            passed_in_params ← lift_result (json_loads P (default "" (args_task_params args)));
            ret (with_params (dict_update (td_params (op_def task)) passed_in_params) task)
          else ret task);
  (if bool_decide (td_params (op_def task) ≠ ∅) && td_params_is_ParamsDict (op_def task) then
     match params_validate P (td_params (op_def task)) with
     | Some e => raise e
     | None => ret tt
     end
   else ret tt);;
  '(ti, dr_created) ← _get_ti task (args_map_index args) (args_logical_date_or_run_id args)
                        None create_db;
  ret (already_has_stream_handler, ti, dr_created).

(** [task_test]: test a task of a workflow. *)
Definition task_test (args : Args) (dag : option DAG) : M unit :=
  '(already_has_stream_handler, ti, dr_created) ← task_test_setup args dag;
  try_finally (task_test_body args ti)
    (task_test_cleanup already_has_stream_handler ti dr_created).

End Commands.

(** ** A small installation to run the commands on *)

Module Demo.

Definition new_year : datetime := mk_datetime 2024 1 1 0 0 0 0.

Definition t1 : TaskDef := mk_taskdef "t1" false "default_pool" ∅ true.
Definition m1 : TaskDef := mk_taskdef "m1" true "default_pool" ∅ true.

Definition W : DAG :=
  mk_dag "W" [t1; m1] (fun d => mk_interval d d).

Definition op_t1 : Operator := mk_operator t1 (Some W).
Definition op_m1 : Operator := mk_operator m1 (Some W).
Definition op_unassigned : Operator := mk_operator m1 None.

Definition manual_1 : DagRun :=
  mk_dagrun "W" (Some "manual_1") MANUAL (Some new_year) (Some (mk_interval new_year new_year))
    new_year CLI (Some "airflow") SUCCESS (Some new_year).

(** A platform whose task body succeeds, and one whose task body raises. *)
Definition platform (body : TaskInstance -> M (option string)) : Platform :=
  mk_platform
    (fun s => if String.eqb s "2024-01-01T00:00:00" then Some new_year else None)
    (fun k => mk_datetime 2024 6 1 12 0 0 (Z.of_nat k))
    (fun d => d)
    MANUAL RUNNING
    (fun _ d => if String.eqb d "W" then inr W else inl (OtherError "AirflowException" d))
    (fun _ => inl (OtherError "JSONDecodeError" ""))
    (fun _ => None)
    body
    (fun m => String.eqb m "pdb")
    (fun _ => ret tt).

Definition succeeding : Platform := platform (fun _ => ret (Some "success")).
Definition raising : Platform := platform (fun _ => raise (OtherError "AirflowException" "boom")).

(** A task body that asserts that the test-mode marker is set. *)
Definition marker_probe : Platform :=
  platform (fun _ => w ← get_world;
                     match environ w !! "AIRFLOW_TEST_MODE" with
                     | Some _ => ret (Some "success")
                     | None => raise (OtherError "AssertionError" "AIRFLOW_TEST_MODE is not set")
                     end).

Definition world : World :=
  mk_world [manual_1] [] [mk_dagversion "W" 1] ∅ false [] false (Some "airflow") 0.

Definition test_args : Args := mk_args None "W" "t1" (-1) None None None false.

(** The instance of [t1] in the run [manual_1], and the world that has its
    row. *)
Definition t1_instance : TaskInstance :=
  mk_ti "t1" "W" (Some "manual_1") (-1) 1 None "default_pool" (Some op_t1) (Some manual_1).

Definition world_bound : World := set_task_instances [row_of t1_instance] world.

End Demo.

(** ** The reading commands

    [task_state], [task_list] and [task_states_for_dag_run]. Each
    definition gives what the command prints. *)

(** What a computation leaves alone when it only works on the run and
    instance tables and reads the clock. *)
Definition same_settings (w w' : World) : Prop :=
  dag_versions w' = dag_versions w /\ environ w' = environ w /\
  MASK_SECRETS_IN_LOGS w' = MASK_SECRETS_IN_LOGS w /\
  task_logger_handlers w' = task_logger_handlers w /\
  task_logger_propagate w' = task_logger_propagate w /\ os_user w' = os_user w.

(** Integrity of the store: every run has a run identifier, and every
    instance row belongs to a run of the run table. *)
Definition store_ok (w : World) : Prop :=
  (forall r, r ∈ dag_runs w -> exists s, dr_run_id r = Some s /\ s ≠ "") /\
  (forall ti, ti ∈ task_instances w ->
     exists r, r ∈ dag_runs w /\ dr_dag_id r = ti_dag_id ti /\ dr_run_id r = ti_run_id ti).

(** [str(n)] of an integer: its decimal numeral. *)
Definition str_int (n : Z) : string := NilZero.string_of_int (Z.to_int n).

(** [sep.join(l)]. *)
Fixpoint join (sep : string) (l : list string) : string :=
  match l with
  | [] => ""
  | [x] => x
  | x :: rest => x +:+ sep +:+ join sep rest
  end.

(** [sorted] on strings, which Python orders by code point. *)
Fixpoint insert_sorted (s : string) (l : list string) : list string :=
  match l with
  | [] => [s]
  | x :: rest => if String.leb s x then s :: x :: rest else x :: insert_sorted s rest
  end.

Definition sorted (l : list string) : list string := foldr insert_sorted [] l.

Definition newline : string := String (ascii_of_nat 10) EmptyString.

(** [any(ti.map_index >= 0 for ti in dag_run.task_instances)]. *)
Definition has_mapped (tis : list TaskInstance) : bool :=
  existsb (fun ti => 0 <=? ti_map_index ti) tis.

Section Creation.

Context (P : Platform).

(** Lines 119 to 159 of [_get_dag_run] on their own: the creation of a run
    once the identifier has matched no run, [logical_date] being the instant
    the identifier parsed to, if it did. *)
Definition create_dag_run (dag : DAG) (create_if_necessary : CreateIfNecessary)
    (logical_date_or_run_id : option string) (logical_date : option datetime)
    : M (DagRun * bool) :=
  let dag_run_logical_date := coerce_datetime logical_date in
  let data_interval :=
    match dag_run_logical_date with
    | Some d => Some (infer_manual_data_interval dag d)
    | None => None
    end in
  run_after ← match data_interval with
              | Some i => ret (di_end i)
              | None => utcnow P
              end;
  user ← try_except (u ← getuser; ret (Some u))
           (fun e => match e with
                     | AirflowConfigException _ => Some (ret None)  (* log.warning *)
                     | _ => None
                     end);
  match create_if_necessary with
  | create_memory =>
      let dag_run :=
        mk_dagrun (dag_id dag) logical_date_or_run_id MANUAL dag_run_logical_date
          data_interval run_after CLI user RUNNING None in
      ret (dag_run, true)
  | create_db =>
      let scheduler_dag := serialization_round_trip P dag in
      run_id ← _generate_temporary_run_id P;
      dag_run ← _get_or_create_dagrun P scheduler_dag run_id dag_run_logical_date
                  data_interval run_after CLI user
                  (match logical_date with Some d => d | None => run_after end);
      ret (dag_run, true)
  | create_False =>
      raise (ValueError "unknown create_if_necessary value: False")
  end.

(** The record that creation mode "db" asks the store for: the run
    identifier is generated, the supplied string only gives the logical
    date. *)
Definition db_run (dag : DAG) (logical_date : option datetime) (w : World) : DagRun :=
  let data_interval := infer_manual_data_interval dag <$> logical_date in
  let run_after :=
    match data_interval with
    | Some i => di_end i
    | None => wall_clock P (clock_reads w)
    end in
  let reads :=
    match data_interval with
    | Some _ => clock_reads w
    | None => S (clock_reads w)
    end in
  mk_dagrun (dag_id (serialization_round_trip P dag))
    (Some ("__airflow_temporary_run_" +:+ isoformat (wall_clock P reads) +:+ "__"))
    (store_run_type P) logical_date data_interval run_after CLI (os_user w)
    (store_run_state P)
    (Some (match logical_date with Some d => d | None => run_after end)).

(** Lines 383 to 396 of [task_test] on their own: the workflow, the task
    with its parameters, and the instance, once the logging and the
    environment are set up. *)
Definition task_test_instance (args : Args) (dag : option DAG)
    (already_has_stream_handler : bool) : M (bool * TaskInstance * bool) :=
  dag ← match dag with
        | Some d => ret d
        | None => lift_result (get_dag P (args_bundle_name args) (args_dag_id args))
        end;
  task ← get_task dag (args_task_id args);
  task ← (if truthy (args_task_params args) then
            passed_in_params ← lift_result (json_loads P (default "" (args_task_params args)));
            ret (with_params (dict_update (td_params (op_def task)) passed_in_params) task)
          else ret task);
  (if bool_decide (td_params (op_def task) ≠ ∅) && td_params_is_ParamsDict (op_def task) then
     match params_validate P (td_params (op_def task)) with
     | Some e => raise e
     | None => ret tt
     end
   else ret tt);;
  '(ti, dr_created) ← _get_ti P task (args_map_index args) (args_logical_date_or_run_id args)
                        None create_db;
  ret (already_has_stream_handler, ti, dr_created).

End Creation.

Section Reading.

Context (P : Platform).

(** Columns of an instance that the record above leaves out, [ti.start_date]
    and [ti.end_date]; and [get_dag] with [from_db=True]. *)
Context (start_date end_date : TaskInstance -> option datetime).
Context (get_dag_from_db : option string -> string -> exn + DAG).

(** Modelled from the spec: [dag_run.task_instances], the instance records
    whose owning run is this run. *)
Definition dag_run_task_instances (dag_run : DagRun) : M (list TaskInstance) :=
  w ← get_world;
  ret (List.filter
         (fun ti => bool_decide (ti_dag_id ti = dr_dag_id dag_run /\
                                 ti_run_id ti = dr_run_id dag_run))
         (task_instances w)).

Definition isoformat_or_empty (d : option datetime) : string :=
  match d with Some d => isoformat d | None => "" end.

(** [format_task_instance], the mapper of [task_states_for_dag_run]: one
    row of the table, as the dictionary's items in insertion order. *)
Definition format_task_instance (dag_run : DagRun) (has_mapped_instances : bool)
    (ti : TaskInstance) : list (string * option string) :=
  let data :=
    [("dag_id", Some (ti_dag_id ti));
     ("logical_date", Some (isoformat_or_empty (dr_logical_date dag_run)));
     ("task_id", Some (ti_task_id ti));
     ("state", ti_state ti);
     ("start_date", Some (isoformat_or_empty (start_date ti)));
     ("end_date", Some (isoformat_or_empty (end_date ti)))] in
  if has_mapped_instances
  then (data ++ [("map_index",
                  Some (if 0 <=? ti_map_index ti then str_int (ti_map_index ti) else ""))])%list
  else data.

(** [task_states_for_dag_run]: the rows handed to the console, one for each
    instance of the run. *)
Definition task_states_for_dag_run (dag value : string)
    : M (list (list (string * option string))) :=
  '(dag_run, _) ← fetch_dag_run_from_run_id_or_logical_date_string P dag value;
  match dag_run with
  | None => raise (DagRunNotFound dag value)
  | Some dag_run =>
      tis ← dag_run_task_instances dag_run;
      let has_mapped_instances := has_mapped tis in
      ret (map (format_task_instance dag_run has_mapped_instances) tis)
  end.


(** [task_list]: the task identifiers of a workflow, as printed. *)
Definition task_list (args : Args) (dag : option DAG) : M string :=
  dag ← match dag with
        | Some d => ret d
        | None => lift_result (get_dag P (args_bundle_name args) (args_dag_id args))
        end;
  let tasks := sorted (td_task_id <$> task_dict dag) in
  ret (join newline tasks).

End Reading.

(** More of the small installation: a world whose task logger propagates
    and has no handler, the world and the instance with which [task_test]
    reaches the task body there, and a run with two instances of a mapped
    task and one of a task that is not mapped. *)
Module Demo2.

Definition propagating_world : World := set_propagate true Demo.world.

Definition prepared_world : World :=
  Eval vm_compute in
    (task_test_setup Demo.raising Demo.test_args None propagating_world).1.

Definition prepared_instance : TaskInstance :=
  Eval vm_compute in
    match (task_test_setup Demo.raising Demo.test_args None propagating_world).2 with
    | inr (_, ti, _) => ti
    | inl _ => Demo.t1_instance
    end.

Definition row (task : string) (map_index : Z) (state : option string) : TaskInstance :=
  mk_ti task "W" (Some "manual_1") map_index 1 state "default_pool" None None.

Definition listed_world : World :=
  set_task_instances
    [row "m1" 0 (Some "success"); row "t1" (-1) None; row "m1" 1 (Some "failed")]
    Demo.world.

Definition no_dates (ti : TaskInstance) : option datetime := None.

End Demo2.

(** * Properties *)

(** ** Rendering instants *)

Example isoformat_whole_second :
  isoformat (mk_datetime 2024 1 1 0 0 0 0) = "2024-01-01T00:00:00+00:00".
Proof. reflexivity. Qed.

Example isoformat_fraction :
  isoformat (mk_datetime 2024 12 31 23 59 58 1234) = "2024-12-31T23:59:58.001234+00:00".
Proof. reflexivity. Qed.

Example toordinal_2024 : toordinal (mk_datetime 2024 1 1 0 0 0 0) = 738886.
Proof. reflexivity. Qed.

Section IsoFormat.

Lemma digit_inj a b : 0 <= a < 10 -> 0 <= b < 10 -> digit a = digit b -> a = b.
Proof.
  intros Ha Hb H. unfold digit in H.
  apply (f_equal N_of_ascii) in H.
  rewrite !N_ascii_embedding in H by lia. lia.
Qed.

Lemma zpad_length w n : String.length (zpad w n) = w.
Proof. revert n. induction w as [|w IH]; intros n; simpl; [done|]. by rewrite IH. Qed.

Lemma zpad_inj w n m :
  0 <= n < 10 ^ Z.of_nat w -> 0 <= m < 10 ^ Z.of_nat w -> zpad w n = zpad w m -> n = m.
Proof.
  revert n m. induction w as [|w IH]; intros n m Hn Hm H.
  - simpl in Hn, Hm. lia.
  - rewrite Nat2Z.inj_succ, Z.pow_succ_r in Hn, Hm by lia.
    simpl in H. injection H as Hd Hrest.
    set (b := 10 ^ Z.of_nat w) in *.
    assert (Hb : 0 < b) by (apply Z.pow_pos_nonneg; lia).
    assert (Hqn : 0 <= n / b < 10) by (split; [apply Z.div_pos; lia | apply Z.div_lt_upper_bound; lia]).
    assert (Hqm : 0 <= m / b < 10) by (split; [apply Z.div_pos; lia | apply Z.div_lt_upper_bound; lia]).
    rewrite !(Z.mod_small _ 10) in Hd by lia.
    apply digit_inj in Hd; [|lia..].
    apply IH in Hrest; [|apply Z.mod_pos_bound; lia..].
    rewrite (Z.div_mod n b), (Z.div_mod m b) by lia. congruence.
Qed.

Lemma append_length a b : String.length (a +:+ b) = (String.length a + String.length b)%nat.
Proof. induction a as [|c a IH]; simpl; [done|]. by rewrite IH. Qed.

Lemma append_inj_length a a' b b' :
  String.length a = String.length a' -> a +:+ b = a' +:+ b' -> a = a' /\ b = b'.
Proof.
  revert a'. induction a as [|c a IH]; intros [|c' a'] Hl H; simpl in *; try done.
  injection H as -> H. destruct (IH a') as [-> ->]; [lia | done | done].
Qed.

Lemma append_cancel_r a b s : a +:+ s = b +:+ s -> a = b.
Proof.
  intros H. apply (append_inj_length a b s s); [|done].
  apply (f_equal String.length) in H. rewrite !append_length in H. lia.
Qed.

Lemma append_cancel_l s a b : s +:+ a = s +:+ b -> a = b.
Proof. intros H. by apply (append_inj_length s s a b). Qed.

Lemma isoformat_inj d1 d2 : valid d1 -> valid d2 -> isoformat d1 = isoformat d2 -> d1 = d2.
Proof.
  destruct d1 as [y1 mo1 dd1 h1 mi1 s1 u1], d2 as [y2 mo2 dd2 h2 mi2 s2 u2].
  unfold valid, isoformat; simpl year; simpl month; simpl day; simpl hour;
    simpl minute; simpl second; simpl microsecond.
  intros (Hy1 & Hmo1 & Hd1 & Hh1 & Hmi1 & Hs1 & Hu1) (Hy2 & Hmo2 & Hd2 & Hh2 & Hmi2 & Hs2 & Hu2) H.
  apply append_inj_length in H as [Hy H]; [|by rewrite !zpad_length].
  apply (append_cancel_l "-") in H.
  apply append_inj_length in H as [Hmo H]; [|by rewrite !zpad_length].
  apply (append_cancel_l "-") in H.
  apply append_inj_length in H as [Hd H]; [|by rewrite !zpad_length].
  apply (append_cancel_l "T") in H.
  apply append_inj_length in H as [Hh H]; [|by rewrite !zpad_length].
  apply (append_cancel_l ":") in H.
  apply append_inj_length in H as [Hmi H]; [|by rewrite !zpad_length].
  apply (append_cancel_l ":") in H.
  apply append_inj_length in H as [Hs H]; [|by rewrite !zpad_length].
  apply zpad_inj in Hy; [|simpl; lia..].
  apply zpad_inj in Hmo; [|simpl; lia..].
  apply zpad_inj in Hd; [|simpl; lia..].
  apply zpad_inj in Hh; [|simpl; lia..].
  apply zpad_inj in Hmi; [|simpl; lia..].
  apply zpad_inj in Hs; [|simpl; lia..].
  assert (u1 = u2) as ->; [|congruence].
  destruct (decide (u1 = 0)) as [->|Hn1], (decide (u2 = 0)) as [->|Hn2]; try done.
  apply (append_cancel_r _ _ "+00:00"), (append_cancel_l ".") in H.
  apply zpad_inj in H; [done|simpl; lia..].
Qed.

Lemma delta_us_self d : delta_us d d = 0.
Proof. unfold delta_us. lia. Qed.

End IsoFormat.

(** ** Temporary run identifiers *)

Lemma temporary_run_id_value (P : Platform) (w : World) :
  _generate_temporary_run_id P w =
  (set_clock_reads (S (clock_reads w)) w,
   inr ("__airflow_temporary_run_" +:+ isoformat (wall_clock P (clock_reads w)) +:+ "__")).
Proof. reflexivity. Qed.

(** C6. A generated temporary run identifier is the prefix
    [__airflow_temporary_run_], the current instant in ISO-8601 and the
    suffix [__]; two invocations whose current instants are at least one
    microsecond apart give distinct identifiers. *)
Theorem temporary_run_id_format_and_uniqueness (P : Platform) (w1 w2 : World) :
  let now1 := wall_clock P (clock_reads w1) in
  let now2 := wall_clock P (clock_reads w2) in
  valid now1 -> valid now2 -> 1 <= Z.abs (delta_us now1 now2) ->
  exists id1 id2,
    (_generate_temporary_run_id P w1).2 = inr id1 /\
    (_generate_temporary_run_id P w2).2 = inr id2 /\
    id1 = "__airflow_temporary_run_" +:+ isoformat now1 +:+ "__" /\
    id2 = "__airflow_temporary_run_" +:+ isoformat now2 +:+ "__" /\
    id1 ≠ id2.
Proof.
  intros now1 now2 Hv1 Hv2 Hapart.
  eexists _, _. rewrite !temporary_run_id_value. simpl.
  repeat split; try reflexivity.
  intros Heq.
  apply (append_cancel_l "__airflow_temporary_run_"), append_cancel_r in Heq.
  apply isoformat_inj in Heq; [|done..].
  fold now1 now2 in Heq. rewrite Heq, delta_us_self in Hapart. lia.
Qed.

Lemma temporary_run_id_format_and_uniqueness_witness :
  exists id1 id2,
    (_generate_temporary_run_id Demo.succeeding Demo.world).2 = inr id1 /\
    (_generate_temporary_run_id Demo.succeeding (set_clock_reads 1 Demo.world)).2 = inr id2 /\
    id1 = "__airflow_temporary_run_2024-06-01T12:00:00+00:00__" /\
    id2 = "__airflow_temporary_run_2024-06-01T12:00:00.000001+00:00__" /\
    id1 ≠ id2.
Proof.
  apply (temporary_run_id_format_and_uniqueness Demo.succeeding Demo.world
           (set_clock_reads 1 Demo.world)).
  - unfold valid; cbn; lia.
  - unfold valid; cbn; lia.
  - vm_compute. discriminate.
Defined.

(** ** Resolving runs *)

Ltac unfold_M :=
  unfold mbind, M_bind, bind, ret, raise, get_world, modify, when, lift_result, try_except in *.

Lemma truthy_Some value : truthy (Some value) = true <-> value ≠ "".
Proof.
  unfold truthy. destruct (String.eqb_spec value ""); simpl; split; congruence.
Qed.

Lemma truthy_false id : truthy id = false <-> id = None \/ id = Some "".
Proof.
  destruct id as [value|]; simpl; [|by split; auto].
  destruct (String.eqb_spec value "") as [->|Hne]; simpl.
  - split; auto.
  - split; [discriminate|]. intros [H|H]; congruence.
Qed.

Lemma find_all_false {A} (f : A -> bool) (l : list A) :
  (forall x, x ∈ l -> f x = false) -> List.find f l = None.
Proof.
  induction l as [|a l IH]; intros H; simpl; [done|].
  rewrite (H a) by constructor. apply IH. intros x Hx. apply H. by constructor.
Qed.

Lemma find_elem {A} (f : A -> bool) (l : list A) x :
  List.find f l = Some x -> x ∈ l /\ f x = true.
Proof. intros H. apply List.find_some in H. by rewrite list_elem_of_In. Qed.

Section Resolution.

Context (P : Platform).

Lemma fetch_is_query d value w :
  (fetch_dag_run_from_run_id_or_logical_date_string P d value w).1 = w.
Proof.
  unfold fetch_dag_run_from_run_id_or_logical_date_string. unfold_M.
  destruct (List.find _ _); [done|]. by destruct (parse P value).
Qed.

Lemma fetch_found d value w r ld :
  (fetch_dag_run_from_run_id_or_logical_date_string P d value w).2 = inr (Some r, ld) ->
  r ∈ dag_runs w /\ dr_dag_id r = d /\
  (dr_run_id r = Some value \/ exists t, parse P value = Some t /\ dr_logical_date r = Some t).
Proof.
  unfold fetch_dag_run_from_run_id_or_logical_date_string. unfold_M.
  destruct (List.find (run_has_id d value) _) as [r'|] eqn:Hid; simpl.
  - intros [= -> <-]. apply find_elem in Hid as [Hin Hm].
    apply bool_decide_eq_true in Hm as [? ?]. auto.
  - destruct (parse P value) as [t|] eqn:Hp; simpl; [|done].
    intros [= Hd <-]. apply find_elem in Hd as [Hin Hm].
    apply bool_decide_eq_true in Hm as [? ?]. eauto 6.
Qed.

Lemma fetch_no_match d value w :
  no_run_matches P d value (dag_runs w) ->
  fetch_dag_run_from_run_id_or_logical_date_string P d value w = (w, inr (None, parse P value)).
Proof.
  intros Hno. unfold fetch_dag_run_from_run_id_or_logical_date_string. unfold_M.
  rewrite find_all_false.
  - destruct (parse P value) as [t|] eqn:Hp; [|done].
    rewrite find_all_false; [done|].
    intros r Hr. apply bool_decide_eq_false. intros [Hd Ht].
    destruct (Hno r Hr Hd) as [_ Hl]. by apply (Hl t).
  - intros r Hr. apply bool_decide_eq_false. intros [Hd Hi].
    destruct (Hno r Hr Hd) as [Hn _]. done.
Qed.

Lemma fetch_reads_runs d value w1 w2 :
  dag_runs w1 = dag_runs w2 ->
  (fetch_dag_run_from_run_id_or_logical_date_string P d value w1).2 =
  (fetch_dag_run_from_run_id_or_logical_date_string P d value w2).2.
Proof.
  intros H. unfold fetch_dag_run_from_run_id_or_logical_date_string. unfold_M.
  rewrite H. destruct (List.find _ _); [done|]. by destruct (parse P value).
Qed.

Lemma get_dag_run_resolved dag c value r ld w :
  value ≠ "" ->
  (fetch_dag_run_from_run_id_or_logical_date_string P (dag_id dag) value w).2
    = inr (Some r, ld) ->
  _get_dag_run P dag c (Some value) w = (w, inr (r, false)).
Proof.
  intros Hne Hfetch.
  pose proof (fetch_is_query (dag_id dag) value w) as Hw.
  unfold _get_dag_run. rewrite (proj2 (truthy_Some value) Hne). simpl.
  unfold_M.
  destruct (fetch_dag_run_from_run_id_or_logical_date_string P (dag_id dag) value w)
    as [w' res]. simpl in *. subst. reflexivity.
Qed.

End Resolution.

(** C2. When the identifier denotes an existing run, as run identifier or as
    the logical date it parses to, [_get_dag_run] returns that run with
    [created = false] in every creation mode, and the world, the run table
    included, is what it was. *)
Theorem get_dag_run_returns_existing_run (P : Platform) (dag : DAG)
    (create_if_necessary : CreateIfNecessary) (value : string) (r : DagRun)
    (ld : option datetime) (w : World) :
  value ≠ "" ->
  (fetch_dag_run_from_run_id_or_logical_date_string P (dag_id dag) value w).2
    = inr (Some r, ld) ->
  _get_dag_run P dag create_if_necessary (Some value) w = (w, inr (r, false)) /\
  r ∈ dag_runs w /\ dr_dag_id r = dag_id dag /\
  (dr_run_id r = Some value \/
   exists t, parse P value = Some t /\ dr_logical_date r = Some t).
Proof.
  intros Hne Hfetch. split; [by eapply get_dag_run_resolved | by eapply fetch_found].
Qed.

Lemma get_dag_run_returns_existing_run_witness :
  _get_dag_run Demo.succeeding Demo.W create_db (Some "2024-01-01T00:00:00") Demo.world
    = (Demo.world, inr (Demo.manual_1, false)) /\
  Demo.manual_1 ∈ dag_runs Demo.world /\ dr_dag_id Demo.manual_1 = dag_id Demo.W /\
  (dr_run_id Demo.manual_1 = Some "2024-01-01T00:00:00" \/
   exists t, parse Demo.succeeding "2024-01-01T00:00:00" = Some t /\
             dr_logical_date Demo.manual_1 = Some t).
Proof.
  apply (get_dag_run_returns_existing_run Demo.succeeding Demo.W create_db
           "2024-01-01T00:00:00" Demo.manual_1 (Some Demo.new_year) Demo.world).
  - discriminate.
  - reflexivity.
Defined.

(** C9. A supplied identifier that denotes no run, with creation disabled:
    [_get_dag_run] raises [DagRunNotFound]. *)
Theorem get_dag_run_not_found (P : Platform) (dag : DAG) (value : string) (w : World) :
  value ≠ "" ->
  no_run_matches P (dag_id dag) value (dag_runs w) ->
  _get_dag_run P dag create_False (Some value) w
    = (w, inl (DagRunNotFound (dag_id dag) value)).
Proof.
  intros Hne Hno.
  unfold _get_dag_run. rewrite (proj2 (truthy_Some value) Hne). simpl.
  unfold mbind, M_bind, bind at 1. unfold bind at 1.
  by rewrite (fetch_no_match P _ _ _ Hno).
Qed.

Lemma get_dag_run_not_found_witness :
  _get_dag_run Demo.succeeding Demo.W create_False (Some "no_such_run") Demo.world
    = (Demo.world, inl (DagRunNotFound "W" "no_such_run")).
Proof.
  apply (get_dag_run_not_found Demo.succeeding Demo.W "no_such_run" Demo.world).
  - discriminate.
  - intros r Hr _. apply list_elem_of_singleton in Hr as ->. split; [discriminate|].
    intros t Ht. discriminate Ht.
Defined.

(** ** Binding task instances *)

Ltac unfold_commands :=
  unfold find_or_create_ti, _get_dag_run, _generate_temporary_run_id, _get_or_create_dagrun,
    fetch_dag_run_from_run_id_or_logical_date_string, get_task_instance,
    get_latest_version, in_session, session_add, session_commit, utcnow, getuser in *.

Lemma get_dag_run_never_runtime_error (P : Platform) dag c id w w' msg :
  _get_dag_run P dag c id w <> (w', inl (RuntimeError msg)).
Proof.
  unfold_commands. unfold_M.
  repeat (case_match; simplify_eq/=); congruence.
Qed.

Lemma find_or_create_ti_never_runtime_error task dag map_index id pool c dr w w' msg :
  find_or_create_ti task dag map_index id pool c dr w <> (w', inl (RuntimeError msg)).
Proof.
  unfold find_or_create_ti, get_task_instance, get_latest_version, in_session,
    session_add, session_commit. unfold_M. simpl.
  destruct (List.find _ _); simpl; [done|].
  destruct (negb _); [done|].
  destruct (last _); [|done]. simpl.
  destruct (existsb _ _); done.
Qed.

Lemma get_ti_after_checks_never_runtime_error (P : Platform) task dag map_index id pool c
    w w' msg :
  (('(dag_run, dr_created) ← _get_dag_run P dag c id;
    ti ← find_or_create_ti task dag map_index id pool c dag_run;
    ret (ti, dr_created)) : M (TaskInstance * bool)) w <> (w', inl (RuntimeError msg)).
Proof.
  unfold mbind, M_bind. unfold bind at 1.
  destruct (_get_dag_run P dag c id w) as [w1 [e|[dr cr]]] eqn:Hrun.
  - intros [= -> ->]. by apply get_dag_run_never_runtime_error in Hrun.
  - unfold bind at 1.
    destruct (find_or_create_ti task dag map_index id pool c dr w1) as [w2 [e|ti]] eqn:Hti.
    + intros [= -> ->]. by apply find_or_create_ti_never_runtime_error in Hti.
    + done.
Qed.

(** C10. A call of [_get_ti] that fails with the map-index [RuntimeError]
    leaves the world as it found it, in every creation mode: the check comes
    before the run is resolved or created. *)
Theorem get_ti_map_index_fault_leaves_store (P : Platform) (task : Operator) (map_index : Z)
    (id pool : option string) (c : CreateIfNecessary) (w w' : World) (msg : string) :
  _get_ti P task map_index id pool c w = (w', inl (RuntimeError msg)) ->
  w' = w /\ dag_runs w' = dag_runs w /\ task_instances w' = task_instances w /\
  ((get_needs_expansion task = true /\ map_index < 0 /\
    msg = "No map_index passed to mapped task") \/
   (get_needs_expansion task = false /\ 0 <= map_index /\
    msg = "map_index passed to non-mapped task")).
Proof.
  unfold _get_ti.
  destruct (op_dag task) as [dag|]; [|unfold_M; congruence].
  destruct (negb (bool_decide _)); [unfold_M; congruence|].
  destruct (negb (truthy id) && negb (creation_allowed c)); [unfold_M; congruence|].
  destruct (get_needs_expansion task) eqn:Hexp.
  - destruct (Z.ltb_spec map_index 0) as [Hlt|Hge].
    + unfold_M. intros [= <- <-]. auto 10.
    + intros H. by apply get_ti_after_checks_never_runtime_error in H.
  - destruct (Z.leb_spec 0 map_index) as [Hle|Hlt].
    + unfold_M. intros [= <- <-]. auto 10.
    + intros H. by apply get_ti_after_checks_never_runtime_error in H.
Qed.

Lemma get_ti_map_index_fault_leaves_store_witness :
  Demo.world = Demo.world /\ dag_runs Demo.world = dag_runs Demo.world /\
  task_instances Demo.world = task_instances Demo.world /\
  ((get_needs_expansion Demo.op_t1 = true /\ 0 < 0 /\
    "map_index passed to non-mapped task" = "No map_index passed to mapped task") \/
   (get_needs_expansion Demo.op_t1 = false /\ 0 <= 0 /\
    "map_index passed to non-mapped task" = "map_index passed to non-mapped task")).
Proof.
  apply (get_ti_map_index_fault_leaves_store Demo.succeeding Demo.op_t1 0 None None
           create_db Demo.world Demo.world "map_index passed to non-mapped task").
  vm_compute. reflexivity.
Defined.

(** The claim C3 as it is stated, for every call, does not hold: a mapped
    task bound with map index -1, no identifier and creation disabled fails
    on the earlier check of the identifier, with [ValueError]. *)
Lemma get_ti_mapped_without_identifier_is_value_error :
  get_needs_expansion Demo.op_m1 = true /\ -1 < 0 /\
  _get_ti Demo.succeeding Demo.op_m1 (-1) None None create_False Demo.world
    = (Demo.world,
       inl (ValueError "Must provide `logical_date_or_run_id` if not `create_if_necessary`.")) /\
  ~ exists msg,
      (_get_ti Demo.succeeding Demo.op_m1 (-1) None None create_False Demo.world).2
        = inl (RuntimeError msg).
Proof.
  assert (H : _get_ti Demo.succeeding Demo.op_m1 (-1) None None create_False Demo.world
    = (Demo.world,
       inl (ValueError "Must provide `logical_date_or_run_id` if not `create_if_necessary`.")))
    by (vm_compute; reflexivity).
  split; [reflexivity|]. split; [lia|]. split; [exact H|].
  rewrite H. intros [msg Hm]. discriminate Hm.
Qed.

(** C3, amended. When the earlier checks of [_get_ti] pass (the task is
    assigned to a workflow whose task mapping has its identifier, and an
    identifier is supplied or creation is allowed), a mapped task with a
    negative map index fails with [RuntimeError] "No map_index passed to
    mapped task", and a task that is not mapped with a map index of 0 or more
    fails with [RuntimeError] "map_index passed to non-mapped task". *)
Theorem get_ti_map_index_mismatch (P : Platform) (task : Operator) (dag : DAG)
    (map_index : Z) (id pool : option string) (c : CreateIfNecessary) (w : World) :
  op_dag task = Some dag ->
  task_id task ∈ (td_task_id <$> task_dict dag) ->
  truthy id = true \/ creation_allowed c = true ->
  (get_needs_expansion task = true /\ map_index < 0) \/
  (get_needs_expansion task = false /\ 0 <= map_index) ->
  _get_ti P task map_index id pool c w
    = (w, inl (RuntimeError (if get_needs_expansion task
                             then "No map_index passed to mapped task"
                             else "map_index passed to non-mapped task"))).
Proof.
  intros Hdag Hin Hgiven Hmismatch. unfold _get_ti. rewrite Hdag.
  rewrite bool_decide_eq_true_2 by done. cbn [negb].
  assert (negb (truthy id) && negb (creation_allowed c) = false) as ->.
  { destruct Hgiven as [-> | ->]; [done|]. by rewrite andb_false_r. }
  destruct Hmismatch as [[-> Hidx] | [-> Hidx]].
  - rewrite (proj2 (Z.ltb_lt _ _) Hidx). reflexivity.
  - rewrite (proj2 (Z.leb_le _ _) Hidx). reflexivity.
Qed.

Lemma get_ti_map_index_mismatch_witness :
  _get_ti Demo.succeeding Demo.op_m1 (-1) None None create_db Demo.world
    = (Demo.world, inl (RuntimeError "No map_index passed to mapped task")) /\
  _get_ti Demo.succeeding Demo.op_t1 0 (Some "manual_1") None create_False Demo.world
    = (Demo.world, inl (RuntimeError "map_index passed to non-mapped task")).
Proof.
  split.
  - apply (get_ti_map_index_mismatch Demo.succeeding Demo.op_m1 Demo.W (-1) None None
             create_db Demo.world).
    + reflexivity.
    + cbn. repeat constructor.
    + right. reflexivity.
    + left. split; [reflexivity | lia].
  - apply (get_ti_map_index_mismatch Demo.succeeding Demo.op_t1 Demo.W 0 (Some "manual_1")
             None create_False Demo.world).
    + reflexivity.
    + cbn. repeat constructor.
    + left. reflexivity.
    + right. split; [reflexivity | lia].
Defined.

(** C8. With an empty identifier ([None] or the empty string) and creation
    disabled, [_get_dag_run] raises [ValueError]; so does [_get_ti], with the
    same message unless one of its two earlier checks of the task, which
    raise [ValueError] too, fails first. *)
Theorem empty_identifier_without_creation_is_value_error (P : Platform) (dag : DAG)
    (task : Operator) (map_index : Z) (id pool : option string) (w : World) :
  truthy id = false ->
  _get_dag_run P dag create_False id w
    = (w, inl (ValueError "Must provide `logical_date_or_run_id` if not `create_if_necessary`.")) /\
  _get_ti P task map_index id pool create_False w
    = (w, inl (ValueError
                 match op_dag task with
                 | None => "Cannot get task instance for a task not assigned to a DAG"
                 | Some d =>
                     if bool_decide (task_id task ∈ (td_task_id <$> task_dict d))
                     then "Must provide `logical_date_or_run_id` if not `create_if_necessary`."
                     else "Provided task " +:+ task_id task +:+ " is not in dag '" +:+
                          dag_id d +:+ "."
                 end)).
Proof.
  intros Hid. split.
  - unfold _get_dag_run. rewrite Hid. reflexivity.
  - unfold _get_ti. destruct (op_dag task) as [d|]; [|done].
    destruct (bool_decide _); cbn [negb]; [|done].
    rewrite Hid. reflexivity.
Qed.

Lemma empty_identifier_without_creation_is_value_error_witness :
  _get_dag_run Demo.succeeding Demo.W create_False None Demo.world
    = (Demo.world,
       inl (ValueError "Must provide `logical_date_or_run_id` if not `create_if_necessary`.")) /\
  _get_ti Demo.succeeding Demo.op_t1 (-1) None None create_False Demo.world
    = (Demo.world,
       inl (ValueError "Must provide `logical_date_or_run_id` if not `create_if_necessary`.")).
Proof.
  apply (empty_identifier_without_creation_is_value_error Demo.succeeding Demo.W
           Demo.op_t1 (-1) None None Demo.world).
  reflexivity.
Defined.

(** ** Creating runs in memory *)

(** The claim C4 as it is stated does not hold when no identifier is given:
    the record built in memory has no run identifier at all, not a
    generated temporary one. *)
Lemma memory_run_without_identifier_has_no_run_id :
  exists r w',
    _get_dag_run Demo.succeeding Demo.W create_memory None Demo.world = (w', inr (r, true)) /\
    dr_run_id r = None /\
    forall now, dr_run_id r ≠ Some ("__airflow_temporary_run_" +:+ isoformat now +:+ "__").
Proof.
  eexists _, _. split; [vm_compute; reflexivity|]. split; [reflexivity|].
  intros now. discriminate.
Qed.

(** C4, amended. In creation mode "memory", when no existing run matches,
    [_get_dag_run] returns with [created = true] a record built in memory:
    its run identifier is the input string when one was supplied and is
    unset when the input was [None] (no temporary identifier is generated),
    its logical date is the instant a supplied input parses to, its state
    is [RUNNING], and the run and task-instance tables are unchanged. *)
Theorem get_dag_run_memory_builds_in_memory (P : Platform) (dag : DAG)
    (id : option string) (w : World) :
  (forall value, id = Some value -> no_run_matches P (dag_id dag) value (dag_runs w)) ->
  exists r w',
    _get_dag_run P dag create_memory id w = (w', inr (r, true)) /\
    (forall value, id = Some value -> value ≠ "" ->
       dr_run_id r = Some value /\ dr_logical_date r = parse P value) /\
    (id = None -> dr_run_id r = None /\ dr_logical_date r = None) /\
    dr_dag_id r = dag_id dag /\ dr_state r = RUNNING /\
    dag_runs w' = dag_runs w /\ task_instances w' = task_instances w.
Proof.
  intros Hno. unfold _get_dag_run.
  replace (negb (creation_allowed create_memory)) with false by done.
  rewrite andb_false_r.
  destruct id as [value|].
  - destruct (truthy (Some value)) eqn:Htruthy.
    + apply truthy_Some in Htruthy.
      unfold mbind, M_bind. unfold bind at 1. unfold bind at 1.
      rewrite (fetch_no_match P _ _ _ (Hno value eq_refl)).
      cbn [creation_allowed negb]. unfold ret at 1. unfold coerce_datetime.
      unfold_commands. unfold_M.
      destruct (parse P value) as [t|] eqn:Hp; simpl; destruct (os_user w) as [u|]; simpl;
        eexists _, _; (split; [reflexivity|]); simpl;
        (split; [by intros v [= <-] _ | by split]).
    + unfold coerce_datetime. unfold_commands. unfold_M. simpl.
      destruct (os_user w) as [u|]; simpl;
        eexists _, _; (split; [reflexivity|]); simpl;
        (split; [intros v [= <-] Hv; apply truthy_Some in Hv; congruence | by split]).
  - unfold coerce_datetime. unfold_commands. unfold_M. simpl.
    destruct (os_user w) as [u|]; simpl;
      eexists _, _; (split; [reflexivity|]); simpl; (split; [done | by split]).
Qed.

Lemma get_dag_run_memory_builds_in_memory_witness :
  exists r w',
    _get_dag_run Demo.succeeding Demo.W create_memory (Some "2031-05-05") Demo.world
      = (w', inr (r, true)) /\
    (forall value, Some "2031-05-05" = Some value -> value ≠ "" ->
       dr_run_id r = Some value /\ dr_logical_date r = parse Demo.succeeding value) /\
    (Some "2031-05-05" = None -> dr_run_id r = None /\ dr_logical_date r = None) /\
    dr_dag_id r = dag_id Demo.W /\ dr_state r = RUNNING /\
    dag_runs w' = dag_runs Demo.world /\ task_instances w' = task_instances Demo.world.
Proof.
  apply (get_dag_run_memory_builds_in_memory Demo.succeeding Demo.W (Some "2031-05-05")
           Demo.world).
  intros value [= <-] r Hr _. apply list_elem_of_singleton in Hr as ->.
  split; [discriminate|]. intros t Ht. discriminate Ht.
Defined.

(** ** Binding the same instance twice *)

Lemma existsb_pointwise {A} (f g : A -> bool) (l : list A) :
  (forall x, f x = g x) -> existsb f l = existsb g l.
Proof. intros H. induction l as [|a l IH]; simpl; [done|]. by rewrite H, IH. Qed.

Section Rows.

(** The rows of one (workflow, run, task, map index). *)
Context (d : string) (run : option string) (task : string) (map_index : Z).

Let m := ti_matches d run task map_index.

Lemma same_row_key ti x :
  m ti = true -> same_row ti x = m x.
Proof.
  unfold m, same_row, ti_matches. intros H.
  apply bool_decide_eq_true in H as (-> & -> & -> & ->). done.
Qed.

Lemma matches_row_of ti : m (row_of ti) = m ti.
Proof. done. Qed.

Lemma existsb_find (rows : list TaskInstance) :
  existsb m rows = bool_decide (is_Some (List.find m rows)).
Proof.
  induction rows as [|x rows IH]; simpl; [done|].
  destruct (m x); simpl; done.
Qed.

Lemma find_replace (y : TaskInstance) (rows : list TaskInstance) :
  m y = true ->
  List.find m (map (fun x => if m x then y else x) rows) = (fun _ => y) <$> List.find m rows.
Proof.
  intros Hy. induction rows as [|x rows IH]; simpl; [done|].
  destruct (m x) eqn:Hx; [by rewrite Hy | by rewrite Hx].
Qed.

Lemma replace_replace (y : TaskInstance) (rows : list TaskInstance) :
  m y = true ->
  map (fun x => if m x then y else x) (map (fun x => if m x then y else x) rows)
  = map (fun x => if m x then y else x) rows.
Proof.
  intros Hy. induction rows as [|x rows IH]; simpl; [done|].
  rewrite IH. destruct (m x) eqn:Hx; [by rewrite Hy | by rewrite Hx].
Qed.

Lemma replace_none (y : TaskInstance) (rows : list TaskInstance) :
  List.find m rows = None -> map (fun x => if m x then y else x) rows = rows.
Proof.
  induction rows as [|x rows IH]; simpl; [done|].
  destruct (m x) eqn:Hx; [done|]. intros H. by rewrite IH.
Qed.

Lemma count_replace (y : TaskInstance) (rows : list TaskInstance) :
  m y = true ->
  length (List.filter m (map (fun x => if m x then y else x) rows))
  = length (List.filter m rows).
Proof.
  intros Hy. induction rows as [|x rows IH]; simpl; [done|].
  destruct (m x) eqn:Hx; [rewrite Hy | rewrite Hx]; simpl; by rewrite IH.
Qed.

Lemma count_none (rows : list TaskInstance) :
  List.find m rows = None -> List.filter m rows = [].
Proof.
  induction rows as [|x rows IH]; simpl; [done|].
  destruct (m x) eqn:Hx; [done|]. exact IH.
Qed.

Lemma count_some (rows : list TaskInstance) x :
  List.find m rows = Some x -> (1 <= length (List.filter m rows))%nat.
Proof.
  induction rows as [|a rows IH]; simpl; [done|].
  destruct (m a) eqn:Ha; simpl; [lia|]. exact IH.
Qed.

(** Writing an instance of that key. *)
Lemma write_row_found ti rows x :
  m ti = true -> List.find m rows = Some x ->
  write_row ti rows = map (fun x => if m x then row_of ti else x) rows.
Proof.
  intros Hti Hx. unfold write_row.
  rewrite (existsb_pointwise _ m) by (intros; by apply same_row_key).
  rewrite existsb_find, Hx, bool_decide_eq_true_2 by eauto.
  apply map_ext. intros a. by rewrite same_row_key.
Qed.

Lemma write_row_fresh ti rows :
  m ti = true -> List.find m rows = None ->
  write_row ti rows = (rows ++ [row_of ti])%list.
Proof.
  intros Hti Hx. unfold write_row.
  rewrite (existsb_pointwise _ m) by (intros; by apply same_row_key).
  rewrite existsb_find, Hx, bool_decide_eq_false_2; [done|]. by intros [? ?].
Qed.

Lemma find_snoc (rows : list TaskInstance) y :
  List.find m rows = None -> m y = true -> List.find m (rows ++ [y])%list = Some y.
Proof.
  induction rows as [|x rows IH]; simpl; intros Hn Hy; [by rewrite Hy|].
  destruct (m x); [done|]. by apply IH.
Qed.

End Rows.

Lemma refresh_twice_of_row task pool r ti :
  refresh_from_task task pool
    (refresh_from_task task pool
       (with_dag_run r
          (row_of (refresh_from_task task pool
                     (refresh_from_task task pool (with_dag_run r ti))))))
  = refresh_from_task task pool (refresh_from_task task pool (with_dag_run r ti)).
Proof. unfold refresh_from_task, with_dag_run, row_of. simpl. by destruct pool. Qed.

Lemma existsb_same_run r runs : r ∈ runs -> existsb (same_run r) runs = true.
Proof.
  intros Hin. apply existsb_exists. exists r. split; [by apply list_elem_of_In|].
  by apply bool_decide_eq_true_2.
Qed.

Local Abbreviation row_key r task map_index :=
  (ti_matches (dr_dag_id r) (dr_run_id r) (task_id task) map_index).

Lemma find_or_create_ti_stable task dag map_index id pool c r w w1 ti1 :
  op_dag task = Some dag -> dr_dag_id r = dag_id dag -> r ∈ dag_runs w ->
  find_or_create_ti task dag map_index id pool c r w = (w1, inr ti1) ->
  let m := ti_matches (dr_dag_id r) (dr_run_id r) (task_id task) map_index in
  dag_runs w1 = dag_runs w /\ ti_dag_run ti1 = Some r /\
  find_or_create_ti task dag map_index id pool c r w1 = (w1, inr ti1) /\
  List.find m (task_instances w1) = Some (row_of ti1) /\
  ((length (List.filter m (task_instances w)) <= 1)%nat ->
   length (List.filter m (task_instances w1)) = 1%nat).
Proof.
  intros Hdag Hid Hin Hcall m. subst m.
  unfold find_or_create_ti, get_task_instance in *. unfold_M. simpl in *.
  destruct (List.find (row_key r task map_index) (task_instances w)) as [row|] eqn:Hfind; simpl in Hcall.
  - injection Hcall as <- <-.
    set (ti1 := refresh_from_task task pool (refresh_from_task task pool (with_dag_run r row))).
    assert (Hm : row_key r task map_index ti1 = true) by (apply find_elem in Hfind as [_ Hrow]; exact Hrow).
    assert (Hm' : row_key r task map_index (row_of ti1) = true) by exact Hm.
    simpl. rewrite (write_row_found _ _ _ _ ti1 _ row Hm Hfind).
    rewrite (find_replace _ _ _ _ (row_of ti1) _ Hm'), Hfind. simpl.
    split; [done|]. split; [done|]. split; [|split; [done|]].
    + assert (Hre : refresh_from_task task pool
                      (refresh_from_task task pool (with_dag_run r (row_of ti1))) = ti1)
        by (unfold ti1; apply refresh_twice_of_row).
      rewrite !Hre.
      rewrite (write_row_found _ _ _ _ ti1 _ (row_of ti1) Hm).
      * rewrite (replace_replace _ _ _ _ (row_of ti1) _ Hm'). reflexivity.
      * by rewrite (find_replace _ _ _ _ (row_of ti1) _ Hm'), Hfind.
    + intros Hle. rewrite (count_replace _ _ _ _ (row_of ti1) _ Hm').
      pose proof (count_some _ _ _ _ _ _ Hfind). lia.
  - destruct (negb (creation_allowed c)); [done|]. unfold get_latest_version in *.
    unfold_M. simpl in *.
    destruct (last _) as [v|]; [|done]. unfold in_session, session_add, session_commit in *.
    unfold_M. simpl in *. rewrite (existsb_same_run _ _ Hin) in *. simpl in *.
    injection Hcall as <- <-.
    set (ti0 := TaskInstance_new task (dr_run_id r) map_index (dv_id v)).
    set (ti1 := refresh_from_task task pool (refresh_from_task task pool (with_dag_run r ti0))).
    assert (Hm0 : row_key r task map_index ti0 = true).
    { apply bool_decide_eq_true_2. simpl. unfold op_dag_id. rewrite Hdag. done. }
    assert (Hm : row_key r task map_index ti1 = true) by exact Hm0.
    assert (Hm' : row_key r task map_index (row_of ti1) = true) by exact Hm.
    rewrite (write_row_fresh _ _ _ _ ti0 _ Hm0 Hfind).
    assert (Hsnoc : List.find (row_key r task map_index) (task_instances w ++ [row_of ti0])%list = Some (row_of ti0))
      by (by apply find_snoc).
    rewrite (write_row_found _ _ _ _ ti1 _ _ Hm Hsnoc).
    rewrite map_app, (replace_none _ _ _ _ _ _ Hfind). simpl.
    change (row_key r task map_index (row_of ti0)) with (row_key r task map_index ti0). rewrite Hm0.
    assert (Hsnoc1 : List.find (row_key r task map_index) (task_instances w ++ [row_of ti1])%list = Some (row_of ti1))
      by (by apply find_snoc).
    rewrite Hsnoc1. simpl.
    split; [done|]. split; [done|]. split; [|split; [done|]].
    + assert (Hre : refresh_from_task task pool
                      (refresh_from_task task pool (with_dag_run r (row_of ti1))) = ti1)
        by (unfold ti1; apply refresh_twice_of_row).
      rewrite !Hre.
      rewrite (write_row_found _ _ _ _ ti1 _ _ Hm Hsnoc1).
      rewrite map_app, (replace_none _ _ _ _ _ _ Hfind). simpl.
      change (row_key r task map_index (row_of ti1)) with (row_key r task map_index ti1). by rewrite Hm.
    + intros _. rewrite List.filter_app, (count_none _ _ _ _ _ Hfind). simpl.
      change (row_key r task map_index (row_of ti1)) with (row_key r task map_index ti1). by rewrite Hm.
Qed.

(** A call of [_get_ti] that returns has passed the checks, which do not
    depend on the world: in every world the call is the resolution of the
    run followed by the binding of the instance. *)
Lemma get_ti_returns_inv (P : Platform) task dag map_index id pool c w w1 res :
  op_dag task = Some dag ->
  _get_ti P task map_index id pool c w = (w1, inr res) ->
  forall w0,
    _get_ti P task map_index id pool c w0 =
    ('(dag_run, dr_created) ← _get_dag_run P dag c id;
     ti ← find_or_create_ti task dag map_index id pool c dag_run;
     ret (ti, dr_created)) w0.
Proof.
  intros Hdag. unfold _get_ti. rewrite Hdag.
  destruct (negb (bool_decide _)); [discriminate|].
  destruct (negb (truthy id) && negb (creation_allowed c)); [discriminate|].
  destruct (get_needs_expansion task).
  - destruct (map_index <? 0); [discriminate|]. done.
  - destruct (0 <=? map_index); [discriminate|]. done.
Qed.

(** C7. When the identifier denotes the run [r] of the store and a first call
    of [_get_ti] for (run, task, map index) returns an instance, in any
    creation mode and so with creation allowed, a second call with the same
    arguments returns the same instance and changes nothing: the first call
    may have created the row, the second finds it. A table with at most one
    row for the triple before has exactly one after. *)
Theorem get_ti_twice_same_instance (P : Platform) (task : Operator) (dag : DAG)
    (map_index : Z) (value : string) (pool : option string) (c : CreateIfNecessary)
    (r : DagRun) (ld : option datetime) (w w1 : World) (ti1 : TaskInstance)
    (created1 : bool) :
  op_dag task = Some dag ->
  value ≠ "" ->
  (fetch_dag_run_from_run_id_or_logical_date_string P (dag_id dag) value w).2
    = inr (Some r, ld) ->
  _get_ti P task map_index (Some value) pool c w = (w1, inr (ti1, created1)) ->
  _get_ti P task map_index (Some value) pool c w1 = (w1, inr (ti1, false)) /\
  created1 = false /\ ti_dag_run ti1 = Some r /\ dag_runs w1 = dag_runs w /\
  List.find (ti_matches (dr_dag_id r) (dr_run_id r) (task_id task) map_index)
    (task_instances w1) = Some (row_of ti1) /\
  ((length (List.filter (ti_matches (dr_dag_id r) (dr_run_id r) (task_id task) map_index)
              (task_instances w)) <= 1)%nat ->
   length (List.filter (ti_matches (dr_dag_id r) (dr_run_id r) (task_id task) map_index)
             (task_instances w1)) = 1%nat).
Proof.
  intros Hdag Hne Hfetch Hcall.
  destruct (fetch_found P _ _ _ _ _ Hfetch) as (Hin & Hid & _).
  pose proof (get_ti_returns_inv P _ _ _ _ _ _ _ _ _ Hdag Hcall) as Heq.
  rewrite Heq in Hcall. rewrite Heq. clear Heq.
  unfold mbind, M_bind in *. unfold bind at 1 in Hcall.
  rewrite (get_dag_run_resolved P dag c value r ld w Hne Hfetch) in Hcall.
  unfold bind at 1 in Hcall.
  destruct (find_or_create_ti task dag map_index (Some value) pool c r w)
    as [w' [e|ti]] eqn:Hbind; [discriminate|].
  injection Hcall as -> -> <-.
  destruct (find_or_create_ti_stable _ _ _ _ _ _ _ _ _ _ Hdag Hid Hin Hbind)
    as (Hruns & Hrun & Hagain & Hrow & Hcount).
  assert (Hfetch1 :
    (fetch_dag_run_from_run_id_or_logical_date_string P (dag_id dag) value w1).2
      = inr (Some r, ld)) by (by rewrite (fetch_reads_runs P _ _ w1 w)).
  split; [|done].
  unfold bind at 1.
  rewrite (get_dag_run_resolved P dag c value r ld w1 Hne Hfetch1).
  unfold bind at 1. by rewrite Hagain.
Qed.

Lemma get_ti_twice_same_instance_witness :
  _get_ti Demo.succeeding Demo.op_t1 (-1) (Some "manual_1") None create_db Demo.world_bound
    = (Demo.world_bound, inr (Demo.t1_instance, false)) /\
  false = false /\ ti_dag_run Demo.t1_instance = Some Demo.manual_1 /\
  dag_runs Demo.world_bound = dag_runs Demo.world /\
  List.find (ti_matches "W" (Some "manual_1") "t1" (-1)) (task_instances Demo.world_bound)
    = Some (row_of Demo.t1_instance) /\
  ((length (List.filter (ti_matches "W" (Some "manual_1") "t1" (-1))
              (task_instances Demo.world)) <= 1)%nat ->
   length (List.filter (ti_matches "W" (Some "manual_1") "t1" (-1))
             (task_instances Demo.world_bound)) = 1%nat).
Proof.
  apply (get_ti_twice_same_instance Demo.succeeding Demo.op_t1 Demo.W (-1) "manual_1" None
           create_db Demo.manual_1 None Demo.world Demo.world_bound Demo.t1_instance false).
  - reflexivity.
  - discriminate.
  - reflexivity.
  - vm_compute. reflexivity.
Defined.

(** ** The environment of a test run *)

Lemma merge_env_vars_falsy (given : option (gmap string string)) (w : World) :
  given = None \/ given = Some ∅ -> merge_env_vars given w = (w, inr tt).
Proof. intros [-> | ->]; reflexivity. Qed.

Lemma merge_env_vars_given (given : gmap string string) (w : World) :
  given ≠ ∅ ->
  merge_env_vars (Some given) w
  = (set_environ (given ∪ {[ "AIRFLOW_TEST_MODE" := "True" ]} ∪ environ w) w, inr tt).
Proof.
  intros Hne. unfold merge_env_vars. by rewrite bool_decide_eq_false_2.
Qed.

Lemma get_dag_run_keeps_environ (P : Platform) dag c id w :
  environ (_get_dag_run P dag c id w).1 = environ w.
Proof.
  unfold_commands. unfold_M.
  repeat (case_match; simplify_eq/=); done.
Qed.

Lemma find_or_create_ti_keeps_environ task dag map_index id pool c dr w :
  environ (find_or_create_ti task dag map_index id pool c dr w).1 = environ w.
Proof.
  unfold find_or_create_ti, get_task_instance, get_latest_version, in_session,
    session_add, session_commit. unfold_M. simpl.
  destruct (List.find _ _); simpl; [done|].
  destruct (negb _); [done|].
  destruct (last _); [|done]. simpl.
  destruct (existsb _ _); done.
Qed.

Lemma get_ti_keeps_environ (P : Platform) task map_index id pool c w :
  environ (_get_ti P task map_index id pool c w).1 = environ w.
Proof.
  unfold _get_ti.
  destruct (op_dag task) as [dag|]; [|done].
  destruct (negb (bool_decide _)); [done|].
  destruct (negb (truthy id) && negb (creation_allowed c)); [done|].
  assert (Hrest : forall w0,
    environ ((('(dag_run, dr_created) ← _get_dag_run P dag c id;
               ti ← find_or_create_ti task dag map_index id pool c dag_run;
               ret (ti, dr_created)) : M (TaskInstance * bool)) w0).1 = environ w0).
  { intros w0. unfold mbind, M_bind. unfold bind at 1.
    pose proof (get_dag_run_keeps_environ P dag c id w0) as H1.
    destruct (_get_dag_run P dag c id w0) as [w1 [e|[dr cr]]]; simpl in *; [done|].
    unfold bind at 1.
    pose proof (find_or_create_ti_keeps_environ task dag map_index id pool c dr w1) as H2.
    destruct (find_or_create_ti task dag map_index id pool c dr w1) as [w2 [e|ti]];
      simpl in *; congruence. }
  destruct (get_needs_expansion task).
  - destruct (map_index <? 0); [done|]. apply Hrest.
  - destruct (0 <=? map_index); [done|]. apply Hrest.
Qed.

Section KeepsEnviron.

Context {A B : Type}.

Lemma keeps_ret (a : A) : keeps_environ (ret a).
Proof. done. Qed.

Lemma keeps_raise (e : exn) : keeps_environ (raise e : M A).
Proof. done. Qed.

Lemma keeps_lift_result (r : exn + A) : keeps_environ (lift_result r).
Proof. done. Qed.

Lemma keeps_bind (m : M A) (f : A -> M B) :
  keeps_environ m -> (forall a, keeps_environ (f a)) -> keeps_environ (m ≫= f).
Proof.
  intros Hm Hf w. unfold mbind, M_bind, bind. specialize (Hm w).
  destruct (m w) as [w1 [e|a]]; simpl in *; [done|]. by rewrite Hf.
Qed.

End KeepsEnviron.

Lemma keeps_modify (f : World -> World) :
  (forall w, environ (f w) = environ w) -> keeps_environ (modify f).
Proof. intros H w. apply H. Qed.

Lemma keeps_when (b : bool) (m : M unit) : keeps_environ m -> keeps_environ (when b m).
Proof. destruct b; [done|]. intros _. apply keeps_ret. Qed.

(** Without environment overrides ([None] or an empty mapping), the world in
    which [task_test] reaches the task body has the environment it started
    with: the [AIRFLOW_TEST_MODE] marker is not merged. *)
Lemma task_test_setup_without_overrides_keeps_environ (P : Platform) (args : Args)
    (dag : option DAG) :
  args_env_vars args = None \/ args_env_vars args = Some ∅ ->
  keeps_environ (task_test_setup P args dag).
Proof.
  intros Hfalsy. unfold task_test_setup.
  apply keeps_bind; [by apply keeps_modify | intros _].
  apply keeps_bind; [done | intros w0].
  apply keeps_bind; [by apply keeps_when, keeps_modify | intros _].
  apply keeps_bind; [intros w1; by rewrite merge_env_vars_falsy | intros _].
  apply keeps_bind; [by destruct dag | intros d].
  apply keeps_bind; [unfold get_task; by destruct (List.find _ _) | intros task].
  apply keeps_bind.
  { destruct (truthy _); [|done]. apply keeps_bind; [done | by intros ?]. }
  intros task'.
  apply keeps_bind.
  { destruct (_ && _); [|done]. by destruct (params_validate _ _). }
  intros _.
  apply keeps_bind; [intros w1; apply get_ti_keeps_environ | by intros [ti cr]].
Qed.

(** C5, at the failing input. [task_test] without environment overrides
    runs the task body in an environment that lacks the [AIRFLOW_TEST_MODE]
    marker: a task body that asserts the marker fails. With any override
    given, the same body passes. *)
Theorem task_test_without_env_vars_runs_body_without_marker :
  args_env_vars Demo.test_args = None /\
  environ Demo.world !! "AIRFLOW_TEST_MODE" = None /\
  environ (task_test_setup Demo.marker_probe Demo.test_args None Demo.world).1
    !! "AIRFLOW_TEST_MODE" = None /\
  (task_test Demo.marker_probe Demo.test_args None Demo.world).2
    = inl (OtherError "AssertionError" "AIRFLOW_TEST_MODE is not set") /\
  (task_test Demo.marker_probe
     (mk_args None "W" "t1" (-1) None (Some {[ "TZ" := "UTC" ]}) None false)
     None Demo.world).2 = inr tt.
Proof.
  split; [reflexivity|]. split; [reflexivity|].
  split.
  - rewrite (task_test_setup_without_overrides_keeps_environ Demo.marker_probe
               Demo.test_args None (or_introl eq_refl)). reflexivity.
  - split; vm_compute; reflexivity.
Qed.

(** ** The transient run of a test execution *)

Lemma get_dag_run_db_without_identifier (P : Platform) (dag : DAG) (w : World) :
  exists dr w',
    _get_dag_run P dag create_db None w = (w', inr (dr, true)) /\
    dr ∈ dag_runs w' /\
    dr_dag_id dr = dag_id (serialization_round_trip P dag) /\
    dr_run_id dr = Some ("__airflow_temporary_run_" +:+
                         isoformat (wall_clock P (S (clock_reads w))) +:+ "__") /\
    dag_versions w' = dag_versions w.
Proof.
  unfold_commands. unfold coerce_datetime. unfold_M. simpl.
  destruct (os_user w) as [u|]; simpl.
  - destruct (List.find _ (dag_runs w)) as [r|] eqn:Hfind; simpl.
    + apply find_elem in Hfind as [Hin Hm]. apply bool_decide_eq_true in Hm as [? ?].
      eexists _, _. split; [reflexivity|]. done.
    + eexists _, _. split; [reflexivity|]. simpl.
      split; [|done]. apply elem_of_app. right. constructor.
  - destruct (List.find _ (dag_runs w)) as [r|] eqn:Hfind; simpl.
    + apply find_elem in Hfind as [Hin Hm]. apply bool_decide_eq_true in Hm as [? ?].
      eexists _, _. split; [reflexivity|]. done.
    + eexists _, _. split; [reflexivity|]. simpl.
      split; [|done]. apply elem_of_app. right. constructor.
Qed.

Lemma find_or_create_ti_returns task dag map_index id pool c dr w :
  creation_allowed c = true ->
  is_Some (last (filter (fun v => bool_decide (dv_dag_id v = dag_id dag)) (dag_versions w))) ->
  exists ti w1,
    find_or_create_ti task dag map_index id pool c dr w = (w1, inr ti) /\
    ti_dag_run ti = Some dr /\ dag_runs w1 = dag_runs w.
Proof.
  intros Hc [v Hv].
  unfold find_or_create_ti, get_task_instance, get_latest_version, in_session,
    session_add, session_commit. unfold_M. cbv beta.
  destruct (List.find _ _) as [row|]; cbn [fmap option_fmap option_map].
  - eexists _, _. split; [reflexivity|]. done.
  - rewrite Hc. cbn [negb]. rewrite Hv.
    destruct (existsb _ _); simpl; eexists _, _; (split; [reflexivity|]); done.
Qed.

Lemma get_task_found (dag : DAG) (id : string) (td : TaskDef) (w : World) :
  List.find (fun t => String.eqb (td_task_id t) id) (task_dict dag) = Some td ->
  get_task dag id w = (w, inr (mk_operator td (Some dag))) /\
  td_task_id td ∈ (td_task_id <$> task_dict dag).
Proof.
  intros Hfind. unfold get_task. rewrite Hfind. split; [done|].
  apply find_elem in Hfind as [Hin _]. by apply list_elem_of_fmap_2.
Qed.

Lemma bind_returns {A B} (m : M A) (f : A -> M B) (w w' : World) (a : A) :
  m w = (w', inr a) -> bind m f w = f a w'.
Proof. intros H. unfold bind. by rewrite H. Qed.

Lemma when_modify (b : bool) (f : World -> World) (w : World) :
  when b (modify f) w = (if b then f w else w, inr tt).
Proof. by destruct b. Qed.

Lemma merge_env_vars_returns (given : option (gmap string string)) (w : World) :
  exists w', merge_env_vars given w = (w', inr tt) /\
             dag_versions w' = dag_versions w /\ clock_reads w' = clock_reads w.
Proof.
  unfold merge_env_vars. destruct given as [g|]; [|by eexists].
  destruct (bool_decide _); by eexists.
Qed.

Lemma get_ti_db_without_identifier (P : Platform) (td : TaskDef) (dag : DAG)
    (map_index : Z) (pool : option string) (w : World) :
  td_task_id td ∈ (td_task_id <$> task_dict dag) ->
  td_needs_expansion td = false ->
  map_index < 0 ->
  is_Some (last (filter (fun v => bool_decide (dv_dag_id v = dag_id dag)) (dag_versions w))) ->
  exists ti dr w1,
    _get_ti P (mk_operator td (Some dag)) map_index None pool create_db w
      = (w1, inr (ti, true)) /\
    ti_dag_run ti = Some dr /\ dr ∈ dag_runs w1 /\
    dr_run_id dr = Some ("__airflow_temporary_run_" +:+
                         isoformat (wall_clock P (S (clock_reads w))) +:+ "__").
Proof.
  intros Hkey Hexp Hidx Hver.
  destruct (get_dag_run_db_without_identifier P dag w) as (dr & w' & Hrun & Hin & _ & Hrid & Hdv).
  rewrite <- Hdv in Hver.
  destruct (find_or_create_ti_returns (mk_operator td (Some dag)) dag map_index None pool
              create_db dr w' eq_refl Hver) as (ti & w1 & Hti & Hdr & Hruns).
  exists ti, dr, w1.
  split; [|by rewrite Hruns].
  unfold _get_ti. cbn [op_dag]. unfold task_id, get_needs_expansion. cbn [op_def].
  rewrite bool_decide_eq_true_2 by done. cbn [negb truthy creation_allowed andb].
  rewrite Hexp. rewrite (proj2 (Z.leb_gt _ _) Hidx).
  unfold mbind, M_bind. unfold bind at 1. cbn [when ret].
  rewrite (bind_returns _ _ _ _ _ Hrun). cbv beta iota.
  by rewrite (bind_returns _ _ _ _ _ Hti).
Qed.

Lemma task_test_setup_returns (P : Platform) (args : Args) (dag : DAG) (td : TaskDef)
    (w : World) :
  List.find (fun t => String.eqb (td_task_id t) (args_task_id args)) (task_dict dag) = Some td ->
  td_needs_expansion td = false ->
  args_map_index args < 0 ->
  args_logical_date_or_run_id args = None ->
  truthy (args_task_params args) = false ->
  (td_params td ≠ ∅ -> td_params_is_ParamsDict td = true ->
   params_validate P (td_params td) = None) ->
  is_Some (last (filter (fun v => bool_decide (dv_dag_id v = dag_id dag)) (dag_versions w))) ->
  exists w_pre already ti dr,
    task_test_setup P args (Some dag) w = (w_pre, inr (already, ti, true)) /\
    ti_dag_run ti = Some dr /\ dr ∈ dag_runs w_pre /\
    dr_run_id dr = Some ("__airflow_temporary_run_" +:+
                         isoformat (wall_clock P (S (clock_reads w))) +:+ "__").
Proof.
  intros Hfind Hexp Hidx Hid Hparams Hvalid Hver.
  unfold task_test_setup, mbind, M_bind.
  unfold bind at 1, modify at 1. unfold bind at 1, get_world at 1. cbv zeta.
  set (already := scan_handlers (task_logger_handlers (set_mask_secrets true w)) false).
  unfold bind at 1. rewrite when_modify.
  set (w0 := if negb already then _ else _).
  assert (Hw0 : dag_versions w0 = dag_versions w /\ clock_reads w0 = clock_reads w)
    by (unfold w0; by destruct (negb already)).
  destruct Hw0 as [Hdv0 Hclk0].
  destruct (merge_env_vars_returns (args_env_vars args) w0) as (w1 & Hmerge & Hdv1 & Hclk1).
  rewrite (bind_returns _ _ _ _ _ Hmerge).
  unfold bind at 1, ret at 1.
  destruct (get_task_found dag _ td w1 Hfind) as [Htask Hkey].
  rewrite (bind_returns _ _ _ _ _ Htask).
  rewrite Hparams. unfold bind at 1, ret at 1.
  assert (Hcheck :
    (if bool_decide (td_params (op_def (mk_operator td (Some dag))) ≠ ∅) &&
        td_params_is_ParamsDict (op_def (mk_operator td (Some dag)))
     then match params_validate P (td_params (op_def (mk_operator td (Some dag)))) with
          | Some e => raise e
          | None => ret tt
          end
     else ret tt) w1 = (w1, inr tt)).
  { cbn [op_def]. destruct (bool_decide _) eqn:Hne; [|done].
    destruct (td_params_is_ParamsDict td) eqn:Hpd; [|done].
    apply bool_decide_eq_true in Hne. by rewrite (Hvalid Hne eq_refl). }
  rewrite (bind_returns _ _ _ _ _ Hcheck).
  rewrite Hid.
  assert (Hver1 : is_Some (last (filter (fun v => bool_decide (dv_dag_id v = dag_id dag))
                                   (dag_versions w1)))) by (by rewrite Hdv1, Hdv0).
  destruct (get_ti_db_without_identifier P td dag (args_map_index args) None w1
              Hkey Hexp Hidx Hver1) as (ti & dr & w2 & Hti & Hdr & Hin & Hrid).
  rewrite (bind_returns _ _ _ _ _ Hti).
  exists w2, already, ti, dr. rewrite Hrid, Hclk1, Hclk0. done.
Qed.

(** C1. [task_test] of a task that is not mapped, with a negative map index,
    no identifier and no parameter overrides, on a workflow that has a
    published version: a run with a temporary identifier is in the run
    table when the task body starts, and, whatever the body does and whether
    it returns or raises, [task_test] ends with the body's outcome in a
    world whose run table is the one the body left without that run. The
    deletion is the [finally] clause. *)
Theorem task_test_deletes_transient_run (P : Platform) (args : Args) (dag : DAG)
    (td : TaskDef) (w : World) :
  List.find (fun t => String.eqb (td_task_id t) (args_task_id args)) (task_dict dag) = Some td ->
  td_needs_expansion td = false ->
  args_map_index args = -1 ->
  args_logical_date_or_run_id args = None ->
  truthy (args_task_params args) = false ->
  (td_params td ≠ ∅ -> td_params_is_ParamsDict td = true ->
   params_validate P (td_params td) = None) ->
  is_Some (last (filter (fun v => bool_decide (dv_dag_id v = dag_id dag)) (dag_versions w))) ->
  exists w_pre already ti dr,
    task_test_setup P args (Some dag) w = (w_pre, inr (already, ti, true)) /\
    ti_dag_run ti = Some dr /\ dr ∈ dag_runs w_pre /\
    dr_run_id dr = Some ("__airflow_temporary_run_" +:+
                         isoformat (wall_clock P (S (clock_reads w))) +:+ "__") /\
    exists w_final,
      task_test P args (Some dag) w = (w_final, (task_test_body P args ti w_pre).2) /\
      dag_runs w_final
        = filter (fun r => same_run dr r = false)
            (dag_runs (task_test_body P args ti w_pre).1) /\
      (forall r, r ∈ dag_runs w_final -> same_run dr r = false) /\
      dr ∉ dag_runs w_final.
Proof.
  intros Hfind Hexp Hidx Hid Hparams Hvalid Hver.
  destruct (task_test_setup_returns P args dag td w Hfind Hexp ltac:(lia) Hid Hparams
              Hvalid Hver) as (w_pre & already & ti & dr & Hsetup & Hdr & Hin & Hrid).
  exists w_pre, already, ti, dr. do 4 (split; [done|]).
  unfold task_test, mbind, M_bind. rewrite (bind_returns _ _ _ _ _ Hsetup).
  cbv beta iota. unfold try_finally.
  destruct (task_test_body P args ti w_pre) as [w_body outcome]. cbn [fst snd].
  unfold task_test_cleanup, mbind, M_bind. rewrite Hdr.
  unfold bind at 1. rewrite when_modify. unfold when, session_delete, modify.
  eexists. split; [reflexivity|]. cbn [dag_runs set_dag_runs].
  assert (Hruns : dag_runs (if negb already then set_propagate false w_body else w_body)
                  = dag_runs w_body) by (by destruct (negb already)).
  rewrite Hruns. split; [done|]. split.
  - intros r Hr. by apply list_elem_of_filter in Hr as [? _].
  - intros Hr. apply list_elem_of_filter in Hr as [Hr _].
    unfold same_run in Hr. by rewrite bool_decide_eq_true_2 in Hr.
Qed.

Lemma task_test_deletes_transient_run_witness :
  exists w_pre already ti dr,
    task_test_setup Demo.raising Demo.test_args (Some Demo.W) Demo.world
      = (w_pre, inr (already, ti, true)) /\
    ti_dag_run ti = Some dr /\ dr ∈ dag_runs w_pre /\
    dr_run_id dr = Some ("__airflow_temporary_run_" +:+
                         isoformat (wall_clock Demo.raising (S (clock_reads Demo.world))) +:+
                         "__") /\
    exists w_final,
      task_test Demo.raising Demo.test_args (Some Demo.W) Demo.world
        = (w_final, (task_test_body Demo.raising Demo.test_args ti w_pre).2) /\
      dag_runs w_final
        = filter (fun r => same_run dr r = false)
            (dag_runs (task_test_body Demo.raising Demo.test_args ti w_pre).1) /\
      (forall r, r ∈ dag_runs w_final -> same_run dr r = false) /\
      dr ∉ dag_runs w_final.
Proof.
  apply (task_test_deletes_transient_run Demo.raising Demo.test_args Demo.W Demo.t1
           Demo.world).
  - reflexivity.
  - reflexivity.
  - reflexivity.
  - reflexivity.
  - reflexivity.
  - intros _ _. reflexivity.
  - eexists. reflexivity.
Defined.

(** The two outcomes on the small installation: the body returns, the body
    raises; the run table ends as it began either way, and the exception of
    the body is the exception of [task_test]. *)
Example task_test_body_returns :
  (task_test Demo.succeeding Demo.test_args None Demo.world).2 = inr tt /\
  dag_runs (task_test Demo.succeeding Demo.test_args None Demo.world).1 = [Demo.manual_1] /\
  dag_runs (task_test_setup Demo.succeeding Demo.test_args None Demo.world).1
    = [Demo.manual_1;
       mk_dagrun "W" (Some "__airflow_temporary_run_2024-06-01T12:00:00.000001+00:00__")
         MANUAL None None (mk_datetime 2024 6 1 12 0 0 0) CLI (Some "airflow") RUNNING
         (Some (mk_datetime 2024 6 1 12 0 0 0))].
Proof. repeat split; vm_compute; reflexivity. Qed.

Example task_test_body_raises :
  (task_test Demo.raising Demo.test_args None Demo.world).2
    = inl (OtherError "AirflowException" "boom") /\
  dag_runs (task_test Demo.raising Demo.test_args None Demo.world).1 = [Demo.manual_1].
Proof. repeat split; vm_compute; reflexivity. Qed.

(** * Further properties of the commands *)

(** ** Choosing a debugger *)

Lemma guess_from_returns (P : Platform) (mods : list string) (exc : exn) (m : string) :
  guess_from P mods exc = inr m <->
  exists before after,
    mods = (before ++ m :: after)%list /\ importable P m = true /\
    forall x, x ∈ before -> importable P x = false.
Proof.
  revert exc. induction mods as [|a mods IH]; intros exc; simpl.
  - split; [done|]. intros (before & after & H & _). by destruct before.
  - destruct (importable P a) eqn:Ha.
    + split.
      * intros [= <-]. exists [], mods. split; [done|]. split; [done|].
        intros x Hx. by apply elem_of_nil in Hx.
      * intros (before & after & Heq & Hm & Hbefore).
        destruct before as [|b before]; simplify_eq/=; [done|].
        rewrite (Hbefore b) in Ha by constructor. done.
    + rewrite IH. split.
      * intros (before & after & -> & Hm & Hbefore).
        exists (a :: before), after. split; [done|]. split; [done|].
        intros x Hx. apply elem_of_cons in Hx as [->|Hx]; auto.
      * intros (before & after & Heq & Hm & Hbefore).
        destruct before as [|b before]; simplify_eq/=; [congruence|].
        exists before, after. split; [done|]. split; [done|].
        intros x Hx. apply Hbefore. by constructor.
Qed.

Lemma guess_from_raises (P : Platform) (mods : list string) (exc e : exn) :
  guess_from P mods exc = inl e <->
  (forall x, x ∈ mods -> importable P x = false) /\
  e = match last mods with Some m => ImportError m | None => exc end.
Proof.
  revert exc. induction mods as [|a mods IH]; intros exc; simpl.
  - split; [intros [= <-]; split; [|done] | by intros [_ ->]].
    intros x Hx. by apply elem_of_nil in Hx.
  - destruct (importable P a) eqn:Ha.
    + split; [done|]. intros [Hall _]. rewrite (Hall a) in Ha by constructor. done.
    + rewrite IH. split.
      * intros [Hall ->]. split.
        -- intros x Hx. apply elem_of_cons in Hx as [->|Hx]; auto.
        -- destruct mods as [|b mods]; [done|]. rewrite last_cons_cons.
           destruct (last (b :: mods)) eqn:Hl; [done|]. by apply last_None in Hl.
      * intros [Hall ->]. split.
        -- intros x Hx. apply Hall. by constructor.
        -- destruct mods as [|b mods]; [done|]. rewrite last_cons_cons.
           destruct (last (b :: mods)) eqn:Hl; [done|]. by apply last_None in Hl.
Qed.

(** X1. [_guess_debugger] returns a module exactly when that module imports
    and no module before it in [SUPPORTED_DEBUGGER_MODULES] does: the first
    one in the order of preference. *)
Theorem guess_debugger_returns_first_importable (P : Platform) (w : World) (m : string) :
  _guess_debugger P w = (w, inr m) <->
  exists before after,
    SUPPORTED_DEBUGGER_MODULES = (before ++ m :: after)%list /\
    importable P m = true /\
    forall x, x ∈ before -> importable P x = false.
Proof.
  pose proof (guess_from_returns P SUPPORTED_DEBUGGER_MODULES
                (OtherError "UnboundLocalError" "exc") m) as [Hto Hfrom].
  unfold _guess_debugger, lift_result. split.
  - intros [= H]. by apply Hto.
  - intros H. by rewrite (Hfrom H).
Qed.

(** X2. [_guess_debugger] raises exactly when none of the supported modules
    imports, and what it raises is the [ImportError] of the last module
    tried, [pdb]. *)
Theorem guess_debugger_raises_last_import_error (P : Platform) (w : World) (e : exn) :
  _guess_debugger P w = (w, inl e) <->
  (forall x, x ∈ SUPPORTED_DEBUGGER_MODULES -> importable P x = false) /\
  e = ImportError "pdb".
Proof.
  pose proof (guess_from_raises P SUPPORTED_DEBUGGER_MODULES
                (OtherError "UnboundLocalError" "exc") e) as [Hto Hfrom].
  unfold _guess_debugger, lift_result. split.
  - intros [= H]. by apply Hto.
  - intros H. by rewrite (Hfrom H).
Qed.

(** ** What [_get_dag_run] does to the world *)

#[local] Arguments isoformat : simpl never.
#[local] Arguments String.append : simpl never.

Lemma try_getuser (w : World) :
  try_except (u ← getuser; ret (Some u))
    (fun e => match e with
              | AirflowConfigException _ => Some (ret None)
              | _ => None
              end) w = (w, inr (os_user w)).
Proof. unfold getuser. unfold_M. by destruct (os_user w). Qed.

(** [_get_dag_run] is its three stages: the check of the arguments, the
    lookup of the identifier, the creation. *)
Lemma get_dag_run_stages (P : Platform) dag c id :
  _get_dag_run P dag c id =
  if negb (truthy id) && negb (creation_allowed c)
  then raise (ValueError "Must provide `logical_date_or_run_id` if not `create_if_necessary`.")
  else
    found ← (match id return M (DagRun * bool + option datetime) with
             | Some value =>
                 if truthy (Some value) then
                   '(dag_run, logical_date) ←
                     fetch_dag_run_from_run_id_or_logical_date_string P (dag_id dag) value;
                   match dag_run with
                   | Some r => ret (inl (r, false))
                   | None =>
                       if negb (creation_allowed c)
                       then raise (DagRunNotFound (dag_id dag) value)
                       else ret (inr logical_date)
                   end
                 else ret (inr None)
             | None => ret (inr None)
             end);
    match found with
    | inl result => ret result
    | inr logical_date => create_dag_run P dag c id logical_date
    end.
Proof. reflexivity. Qed.

Lemma fetch_result (P : Platform) d value w :
  exists r ld,
    fetch_dag_run_from_run_id_or_logical_date_string P d value w = (w, inr (r, ld)) /\
    (r = None -> ld = parse P value).
Proof.
  unfold fetch_dag_run_from_run_id_or_logical_date_string. unfold_M.
  destruct (List.find _ _); [by eexists _, _|].
  destruct (parse P value); by eexists _, _.
Qed.

(** The creation stage, run. *)
Lemma create_dag_run_memory (P : Platform) dag id ld w :
  create_dag_run P dag create_memory id ld w =
  (match ld with Some _ => w | None => set_clock_reads (S (clock_reads w)) w end,
   inr (mk_dagrun (dag_id dag) id MANUAL ld (infer_manual_data_interval dag <$> ld)
          (match ld with
           | Some d => di_end (infer_manual_data_interval dag d)
           | None => wall_clock P (clock_reads w)
           end) CLI (os_user w) RUNNING None, true)).
Proof.
  unfold create_dag_run, coerce_datetime, mbind, M_bind.
  destruct ld as [d|]; cbn [fmap option_fmap option_map].
  - unfold bind at 1, ret at 1. by rewrite (bind_returns _ _ _ _ _ (try_getuser w)).
  - unfold bind at 1, utcnow at 1.
    by rewrite (bind_returns _ _ _ _ _ (try_getuser _)).
Qed.

Lemma create_dag_run_db (P : Platform) dag id ld w :
  create_dag_run P dag create_db id ld w =
  let w1 := match ld with Some _ => w | None => set_clock_reads (S (clock_reads w)) w end in
  let w2 := set_clock_reads (S (clock_reads w1)) w1 in
  match List.find (run_has_id (dr_dag_id (db_run P dag ld w))
                     (default "" (dr_run_id (db_run P dag ld w)))) (dag_runs w) with
  | Some r => (w2, inr (r, true))
  | None => (set_dag_runs (dag_runs w ++ [db_run P dag ld w]) w2, inr (db_run P dag ld w, true))
  end.
Proof.
  unfold create_dag_run, coerce_datetime, db_run, mbind, M_bind.
  destruct ld as [d|]; cbn [fmap option_fmap option_map default dr_dag_id dr_run_id].
  - unfold bind at 1, ret at 1. rewrite (bind_returns _ _ _ _ _ (try_getuser w)).
    rewrite (bind_returns _ _ _ _ _ (temporary_run_id_value P w)).
    unfold _get_or_create_dagrun. unfold_M. cbn [dag_runs set_clock_reads].
    by destruct (List.find _ _).
  - unfold bind at 1, utcnow at 1.
    rewrite (bind_returns _ _ _ _ _ (try_getuser _)).
    rewrite (bind_returns _ _ _ _ _ (temporary_run_id_value P _)).
    unfold _get_or_create_dagrun. unfold_M. cbn [dag_runs set_clock_reads clock_reads os_user].
    by destruct (List.find _ _).
Qed.

Lemma get_dag_run_cases (P : Platform) dag c id w :
  (truthy id = false /\ c = create_False /\
   _get_dag_run P dag c id w =
   (w, inl (ValueError "Must provide `logical_date_or_run_id` if not `create_if_necessary`.")))
  \/
  (exists value r ld, id = Some value /\ value ≠ "" /\
     fetch_dag_run_from_run_id_or_logical_date_string P (dag_id dag) value w
       = (w, inr (Some r, ld)) /\
     _get_dag_run P dag c id w = (w, inr (r, false)))
  \/
  (exists value, id = Some value /\ value ≠ "" /\ c = create_False /\
     fetch_dag_run_from_run_id_or_logical_date_string P (dag_id dag) value w
       = (w, inr (None, parse P value)) /\
     _get_dag_run P dag c id w = (w, inl (DagRunNotFound (dag_id dag) value)))
  \/
  (creation_allowed c = true /\
   exists ld,
     ((truthy id = false /\ ld = None) \/
      (exists value, id = Some value /\ value ≠ "" /\ ld = parse P value /\
         fetch_dag_run_from_run_id_or_logical_date_string P (dag_id dag) value w
           = (w, inr (None, ld)))) /\
     _get_dag_run P dag c id w = create_dag_run P dag c id ld w).
Proof.
  rewrite get_dag_run_stages. unfold mbind, M_bind.
  destruct (truthy id) eqn:Htruthy; cbn [negb andb].
  - destruct id as [value|]; [|done]. rewrite Htruthy.
    pose proof Htruthy as Hne. apply truthy_Some in Hne.
    destruct (fetch_result P (dag_id dag) value w) as (r & ld & Hf & Hld).
    destruct r as [r|].
    + right. left. exists value, r, ld. do 3 (split; [done|]).
      unfold bind at 1. by rewrite (bind_returns _ _ _ _ _ Hf).
    + specialize (Hld eq_refl). subst ld.
      destruct (creation_allowed c) eqn:Hc; cbn [negb].
      * right. right. right. split; [done|]. exists (parse P value).
        split; [right; by exists value|].
        unfold bind at 1. by rewrite (bind_returns _ _ _ _ _ Hf).
      * right. right. left. exists value. split; [done|]. split; [done|].
        split; [by destruct c|]. split; [done|].
        unfold bind at 1. by rewrite (bind_returns _ _ _ _ _ Hf).
  - destruct (creation_allowed c) eqn:Hc; cbn [negb].
    + right. right. right. split; [done|]. exists None. split; [by left|].
      by destruct id as [value|]; [rewrite Htruthy|].
    + left. by destruct c.
Qed.

Lemma create_dag_run_returns (P : Platform) dag c id ld w :
  creation_allowed c = true ->
  exists dr w',
    create_dag_run P dag c id ld w = (w', inr (dr, true)) /\
    same_settings w w' /\ task_instances w' = task_instances w /\
    (c = create_memory -> dag_runs w' = dag_runs w) /\
    (c = create_db ->
     dr ∈ dag_runs w' /\
     (dag_runs w' = dag_runs w \/ dag_runs w' = (dag_runs w ++ [dr])%list)).
Proof.
  intros Hc. destruct c; [done| |].
  - rewrite create_dag_run_db. cbv zeta.
    destruct (List.find _ _) as [r|] eqn:Hfind.
    + eexists _, _. split; [reflexivity|]. apply find_elem in Hfind as [Hin _].
      unfold same_settings. destruct ld; cbn;
        (split; [done|]; split; [done|]; split; [done|]; intros _;
         split; [done | by left]).
    + eexists _, _. split; [reflexivity|].
      unfold same_settings. destruct ld; cbn;
        (split; [done|]; split; [done|]; split; [done|]; intros _;
         split; [apply elem_of_app; right; constructor | by right]).
  - rewrite create_dag_run_memory. eexists _, _. split; [reflexivity|].
    unfold same_settings. destruct ld; cbn;
      (split; [done|]; split; [done|]; split; done).
Qed.






(** X6. Creation mode "db", when the identifier (if any) denotes no run and
    the generated identifier is new to the store: the run appended to the
    run table and returned carries a generated temporary identifier, never
    the supplied string, which only gives the logical date; the timetable
    gives the data interval; the run-after instant is the interval's end,
    or the current instant without one; the start date is the logical date,
    or the run-after instant without one; the user is the one the operating
    system names, if any. *)
Theorem get_dag_run_db_record (P : Platform) (dag : DAG) (id : option string) (w : World) :
  let ld := if truthy id then id ≫= parse P else None in
  let dr := db_run P dag ld w in
  (forall value, id = Some value -> value ≠ "" ->
     no_run_matches P (dag_id dag) value (dag_runs w)) ->
  (forall r, r ∈ dag_runs w -> dr_dag_id r = dr_dag_id dr -> dr_run_id r ≠ dr_run_id dr) ->
  exists w',
    _get_dag_run P dag create_db id w = (w', inr (dr, true)) /\
    dag_runs w' = (dag_runs w ++ [dr])%list /\
    (exists now, dr_run_id dr =
                 Some ("__airflow_temporary_run_" +:+ isoformat now +:+ "__")) /\
    dr_logical_date dr = ld /\
    dr_data_interval dr = infer_manual_data_interval dag <$> ld /\
    dr_run_after dr = match dr_data_interval dr with
                      | Some i => di_end i
                      | None => wall_clock P (clock_reads w)
                      end /\
    dr_start_date dr = Some (default (dr_run_after dr) ld) /\
    dr_triggered_by dr = CLI /\ dr_triggering_user_name dr = os_user w.
Proof.
  intros ld dr Hno Hfresh.
  assert (Hrun : _get_dag_run P dag create_db id w = create_dag_run P dag create_db id ld w).
  { destruct (get_dag_run_cases P dag create_db id w)
      as [(Hid & ? & H) | [(value & r & ld' & -> & Hne & Hf & H)
         | [(value & -> & Hne & ? & Hf & H) | (_ & ld' & Hstage & H)]]]; try done.
    - rewrite (fetch_no_match P _ _ _ (Hno value eq_refl Hne)) in Hf. done.
    - rewrite H. unfold ld.
      destruct Hstage as [[-> ->] | (value & -> & Hne & -> & _)]; [done|].
      by rewrite (proj2 (truthy_Some value) Hne). }
  rewrite Hrun, create_dag_run_db. cbv zeta. fold dr.
  rewrite find_all_false.
  - eexists. split; [reflexivity|]. split; [by destruct ld|].
    split; [by eexists|]. by destruct ld.
  - intros r Hr. apply bool_decide_eq_false. intros [Hd Hi].
    apply (Hfresh r Hr Hd). by rewrite Hi.
Qed.

Lemma get_dag_run_db_record_witness :
  let ld := if truthy (Some "2024-01-01T00:00:00")
            then Some "2024-01-01T00:00:00" ≫= parse Demo.succeeding else None in
  let dr := db_run Demo.succeeding Demo.W ld (set_dag_runs [] Demo.world) in
  exists w',
    _get_dag_run Demo.succeeding Demo.W create_db (Some "2024-01-01T00:00:00")
      (set_dag_runs [] Demo.world) = (w', inr (dr, true)) /\
    dag_runs w' = (dag_runs (set_dag_runs [] Demo.world) ++ [dr])%list /\
    (exists now, dr_run_id dr =
                 Some ("__airflow_temporary_run_" +:+ isoformat now +:+ "__")) /\
    dr_logical_date dr = ld /\
    dr_data_interval dr = infer_manual_data_interval Demo.W <$> ld /\
    dr_run_after dr = match dr_data_interval dr with
                      | Some i => di_end i
                      | None => wall_clock Demo.succeeding
                                  (clock_reads (set_dag_runs [] Demo.world))
                      end /\
    dr_start_date dr = Some (default (dr_run_after dr) ld) /\
    dr_triggered_by dr = CLI /\
    dr_triggering_user_name dr = os_user (set_dag_runs [] Demo.world).
Proof.
  apply (get_dag_run_db_record Demo.succeeding Demo.W (Some "2024-01-01T00:00:00")
           (set_dag_runs [] Demo.world)).
  - intros value _ _ r Hr. by apply elem_of_nil in Hr.
  - intros r Hr. by apply elem_of_nil in Hr.
Defined.

Example db_run_from_a_date :
  db_run Demo.succeeding Demo.W (Some Demo.new_year) Demo.world
  = mk_dagrun "W" (Some "__airflow_temporary_run_2024-06-01T12:00:00+00:00__") MANUAL
      (Some Demo.new_year) (Some (mk_interval Demo.new_year Demo.new_year)) Demo.new_year
      CLI (Some "airflow") RUNNING (Some Demo.new_year).
Proof. reflexivity. Qed.

(** ** What [_get_ti] does to the world, and what it returns *)

Lemma write_row_length ti rows :
  length (write_row ti rows) = length rows \/
  (existsb (same_row ti) rows = false /\ length (write_row ti rows) = S (length rows)).
Proof.
  unfold write_row. destruct (existsb _ _).
  - left. by rewrite length_map.
  - right. split; [done|]. rewrite length_app. simpl. lia.
Qed.

(** The checks of [_get_ti] passed: the call is the resolution of the run
    followed by the binding of the instance. *)
Lemma get_ti_checks_pass (P : Platform) task dag map_index id pool c :
  op_dag task = Some dag ->
  task_id task ∈ (td_task_id <$> task_dict dag) ->
  truthy id = true \/ creation_allowed c = true ->
  (get_needs_expansion task = true /\ 0 <= map_index) \/
  (get_needs_expansion task = false /\ map_index < 0) ->
  _get_ti P task map_index id pool c =
  ('(dag_run, dr_created) ← _get_dag_run P dag c id;
   ti ← find_or_create_ti task dag map_index id pool c dag_run;
   ret (ti, dr_created)).
Proof.
  intros Hdag Hin Hgiven Hidx. unfold _get_ti. rewrite Hdag.
  rewrite bool_decide_eq_true_2 by done. cbn [negb].
  assert (negb (truthy id) && negb (creation_allowed c) = false) as ->.
  { destruct Hgiven as [-> | ->]; [done|]. by rewrite andb_false_r. }
  destruct Hidx as [[-> Hidx] | [-> Hidx]].
  - by rewrite (proj2 (Z.ltb_ge _ _) Hidx).
  - by rewrite (proj2 (Z.leb_gt _ _) Hidx).
Qed.

(** The four ways in which [_get_ti] ends before it resolves the run, and
    the way on. *)
Lemma get_ti_cases (P : Platform) task map_index id pool c w :
  (exists e, _get_ti P task map_index id pool c w = (w, inl e)) \/
  (exists dag,
     op_dag task = Some dag /\ task_id task ∈ (td_task_id <$> task_dict dag) /\
     (truthy id = true \/ creation_allowed c = true) /\
     ((get_needs_expansion task = true /\ 0 <= map_index) \/
      (get_needs_expansion task = false /\ map_index < 0)) /\
     _get_ti P task map_index id pool c w =
     (('(dag_run, dr_created) ← _get_dag_run P dag c id;
       ti ← find_or_create_ti task dag map_index id pool c dag_run;
       ret (ti, dr_created)) : M (TaskInstance * bool)) w).
Proof.
  destruct (op_dag task) as [dag|] eqn:Hdag;
    [|left; unfold _get_ti; rewrite Hdag; by eexists].
  destruct (decide (task_id task ∈ (td_task_id <$> task_dict dag))) as [Hin|Hin];
    [|left; unfold _get_ti; rewrite Hdag, bool_decide_eq_false_2 by done; by eexists].
  destruct (negb (truthy id) && negb (creation_allowed c)) eqn:Hgiven.
  { left. unfold _get_ti. rewrite Hdag, bool_decide_eq_true_2, Hgiven by done. by eexists. }
  assert (Hgiven' : truthy id = true \/ creation_allowed c = true).
  { destruct (truthy id), (creation_allowed c); auto. }
  destruct (get_needs_expansion task) eqn:Hexp.
  - destruct (Z.ltb_spec map_index 0) as [Hlt|Hge].
    + left. unfold _get_ti.
      rewrite Hdag, bool_decide_eq_true_2, Hgiven, Hexp, (proj2 (Z.ltb_lt _ _) Hlt) by done.
      by eexists.
    + right. exists dag. do 4 (split; [auto|]).
      by rewrite (get_ti_checks_pass P task dag map_index id pool c) by auto.
  - destruct (Z.leb_spec 0 map_index) as [Hle|Hlt].
    + left. unfold _get_ti.
      rewrite Hdag, bool_decide_eq_true_2, Hgiven, Hexp, (proj2 (Z.leb_le _ _) Hle) by done.
      by eexists.
    + right. exists dag. do 4 (split; [auto|]).
      by rewrite (get_ti_checks_pass P task dag map_index id pool c) by auto.
Qed.

(** The binding of the instance, case by case. *)
Lemma find_or_create_ti_cases task dag map_index id pool c dr w :
  let key := ti_matches (dr_dag_id dr) (dr_run_id dr) (task_id task) map_index in
  let latest := last (filter (fun v => bool_decide (dv_dag_id v = dag_id dag)) (dag_versions w)) in
  match List.find key (task_instances w) with
  | Some row =>
      let ti := refresh_from_task task pool (refresh_from_task task pool (with_dag_run dr row)) in
      find_or_create_ti task dag map_index id pool c dr w
      = (set_task_instances (write_row ti (task_instances w)) w, inr ti)
  | None =>
      match c, latest with
      | create_False, _ =>
          find_or_create_ti task dag map_index id pool c dr w
          = (w, inl (TaskInstanceNotFound (dag_id dag) (task_id task) map_index id))
      | _, None =>
          find_or_create_ti task dag map_index id pool c dr w
          = (w, inl (ValueError ("Cannot create TaskInstance for " +:+ dag_id dag +:+
                                 " because the Dag is not serialized.")))
      | _, Some v =>
          let ti0 := TaskInstance_new task (dr_run_id dr) map_index (dv_id v) in
          let ti := refresh_from_task task pool
                      (refresh_from_task task pool (with_dag_run dr ti0)) in
          find_or_create_ti task dag map_index id pool c dr w
          = (if existsb (same_run dr) (dag_runs w)
             then set_task_instances
                    (write_row ti (write_row ti0 (task_instances w))) w
             else w, inr ti)
      end
  end.
Proof.
  intros key latest. subst key latest.
  unfold find_or_create_ti, get_task_instance, get_latest_version, in_session,
    session_add, session_commit. unfold_M. cbv beta.
  destruct (List.find _ _) as [row|]; cbn [fmap option_fmap option_map].
  - reflexivity.
  - destruct c; cbn [creation_allowed negb]; [done| |];
      (destruct (last _) as [v|]; [|done]);
      by destruct (existsb _ _).
Qed.

Lemma same_row_self ti : same_row ti (row_of ti) = true.
Proof. by apply bool_decide_eq_true_2. Qed.

Lemma write_row_has_row ti rows : existsb (same_row ti) (write_row ti rows) = true.
Proof.
  unfold write_row. destruct (existsb (same_row ti) rows) eqn:He.
  - apply existsb_exists in He as (x & Hx & Hm). apply existsb_exists.
    exists (row_of ti). split; [|apply same_row_self].
    apply in_map_iff. exists x. by rewrite Hm.
  - rewrite existsb_app. simpl. by rewrite same_row_self, orb_true_r.
Qed.

Lemma write_row_again ti ti0 rows :
  (forall x, same_row ti x = same_row ti0 x) ->
  length (write_row ti (write_row ti0 rows)) = length (write_row ti0 rows).
Proof.
  intros Hkey. unfold write_row at 1.
  rewrite (existsb_pointwise _ _ _ Hkey), write_row_has_row. by rewrite length_map.
Qed.

Lemma find_or_create_ti_frame task dag map_index id pool c dr w :
  dag_runs (find_or_create_ti task dag map_index id pool c dr w).1 = dag_runs w /\
  same_settings w (find_or_create_ti task dag map_index id pool c dr w).1 /\
  clock_reads (find_or_create_ti task dag map_index id pool c dr w).1 = clock_reads w /\
  (length (task_instances w)
   <= length (task_instances (find_or_create_ti task dag map_index id pool c dr w).1)
   <= S (length (task_instances w)))%nat /\
  (c = create_False ->
   length (task_instances (find_or_create_ti task dag map_index id pool c dr w).1)
   = length (task_instances w)).
Proof.
  pose proof (find_or_create_ti_cases task dag map_index id pool c dr w) as H.
  cbv zeta in H. unfold same_settings.
  destruct (List.find _ _) as [row|] eqn:Hfind.
  - rewrite H. cbn. do 3 (split; [done|]).
    erewrite write_row_found; [rewrite length_map; split; [lia|done] | | exact Hfind].
    by apply find_elem in Hfind as [_ Hrow].
  - assert (Hnew : forall v,
      (length (task_instances w)
       <= length (write_row
                    (refresh_from_task task pool
                       (refresh_from_task task pool
                          (with_dag_run dr
                             (TaskInstance_new task (dr_run_id dr) map_index (dv_id v)))))
                    (write_row (TaskInstance_new task (dr_run_id dr) map_index (dv_id v))
                       (task_instances w)))
       <= S (length (task_instances w)))%nat).
    { intros v. rewrite write_row_again by done.
      destruct (write_row_length (TaskInstance_new task (dr_run_id dr) map_index (dv_id v))
                  (task_instances w)) as [-> | [_ ->]]; lia. }
    destruct c.
    + rewrite H. cbn. do 3 (split; [done|]). split; [lia|done].
    + destruct (last _) as [v|]; rewrite H; cbn; [|do 3 (split; [done|]); split; [lia|done]].
      destruct (existsb _ _); cbn; do 3 (split; [done|]); (split; [|done]);
        [apply Hnew | lia].
    + destruct (last _) as [v|]; rewrite H; cbn; [|do 3 (split; [done|]); split; [lia|done]].
      destruct (existsb _ _); cbn; do 3 (split; [done|]); (split; [|done]);
        [apply Hnew | lia].
Qed.

(** With creation disabled [_get_ti] either raises in the world it was
    called in, or returns the row it found, refreshed. *)
Lemma get_ti_disabled_cases (P : Platform) (task : Operator)
    (map_index : Z) (id pool : option string) (w : World) :
  (exists e, _get_ti P task map_index id pool create_False w = (w, inl e)) \/
  (exists dag value r ld row,
     op_dag task = Some dag /\ id = Some value /\ value ≠ "" /\
     fetch_dag_run_from_run_id_or_logical_date_string P (dag_id dag) value w
       = (w, inr (Some r, ld)) /\
     List.find (ti_matches (dr_dag_id r) (dr_run_id r) (task_id task) map_index)
       (task_instances w) = Some row /\
     _get_ti P task map_index id pool create_False w
     = (set_task_instances
          (write_row (refresh_from_task task pool
                        (refresh_from_task task pool (with_dag_run r row)))
             (task_instances w)) w,
        inr (refresh_from_task task pool (refresh_from_task task pool (with_dag_run r row)),
             false))).
Proof.
  destruct (get_ti_cases P task map_index id pool create_False w)
    as [[e He] | (dag & Hdag & _ & _ & _ & He)]; [left; by exists e|].
  rewrite He. unfold mbind, M_bind, bind.
  destruct (get_dag_run_cases P dag create_False id w)
    as [(_ & _ & H) | [(value & r & ld & -> & Hne & Hf & H)
       | [(value & -> & Hne & _ & Hf & H) | (Hc & _)]]]; try done;
    rewrite H; [left; by eexists| |left; by eexists].
  pose proof (find_or_create_ti_cases task dag map_index (Some value) pool create_False r w)
    as Hc.
  cbv zeta in Hc.
  destruct (List.find _ _) as [row|] eqn:Hfind; rewrite Hc; [|left; by eexists].
  right. exists dag, value, r, ld, row. done.
Qed.

(** X7. [_get_ti] with creation disabled, as [task_state] and
    [task_failed_deps] call it, creates nothing whatever its outcome: the
    run table is the same, the instance table has as many rows, and the
    clock is not read. *)
Theorem get_ti_without_creation_creates_nothing (P : Platform) (task : Operator)
    (map_index : Z) (id pool : option string) (w : World) :
  dag_runs (_get_ti P task map_index id pool create_False w).1 = dag_runs w /\
  length (task_instances (_get_ti P task map_index id pool create_False w).1)
    = length (task_instances w) /\
  same_settings w (_get_ti P task map_index id pool create_False w).1 /\
  clock_reads (_get_ti P task map_index id pool create_False w).1 = clock_reads w.
Proof.
  destruct (get_ti_disabled_cases P task map_index id pool w)
    as [[e ->] | (dag & value & r & ld & row & _ & _ & _ & _ & Hfind & ->)].
  - by unfold same_settings.
  - cbn. split; [done|]. split; [|by unfold same_settings].
    erewrite write_row_found; [by rewrite length_map | | exact Hfind].
    by apply find_elem in Hfind as [_ Hrow].
Qed.

(** X8. The identifier denotes a run of the store that has no instance for
    the task and map index. With creation disabled [_get_ti] raises
    [TaskInstanceNotFound]; with creation allowed and no published version
    of the workflow it raises [ValueError] instead, the workflow not being
    serialized. Either way the world is left as it was. *)
Theorem get_ti_instance_missing (P : Platform) (task : Operator) (dag : DAG)
    (map_index : Z) (value : string) (pool : option string) (c : CreateIfNecessary)
    (r : DagRun) (ld : option datetime) (w : World) :
  op_dag task = Some dag ->
  task_id task ∈ (td_task_id <$> task_dict dag) ->
  (get_needs_expansion task = true /\ 0 <= map_index) \/
  (get_needs_expansion task = false /\ map_index < 0) ->
  value ≠ "" ->
  (fetch_dag_run_from_run_id_or_logical_date_string P (dag_id dag) value w).2
    = inr (Some r, ld) ->
  List.find (ti_matches (dr_dag_id r) (dr_run_id r) (task_id task) map_index)
    (task_instances w) = None ->
  c = create_False \/
  last (filter (fun v => bool_decide (dv_dag_id v = dag_id dag)) (dag_versions w)) = None ->
  _get_ti P task map_index (Some value) pool c w
  = (w, inl (if creation_allowed c
             then ValueError ("Cannot create TaskInstance for " +:+ dag_id dag +:+
                              " because the Dag is not serialized.")
             else TaskInstanceNotFound (dag_id dag) (task_id task) map_index (Some value))).
Proof.
  intros Hdag Hin Hidx Hne Hfetch Hfind Hmode.
  rewrite (get_ti_checks_pass P task dag map_index (Some value) pool c Hdag Hin
             (or_introl (proj2 (truthy_Some value) Hne)) Hidx).
  unfold mbind, M_bind. unfold bind at 1.
  rewrite (get_dag_run_resolved P dag c value r ld w Hne Hfetch).
  unfold bind at 1.
  pose proof (find_or_create_ti_cases task dag map_index (Some value) pool c r w) as H.
  cbv zeta in H. rewrite Hfind in H.
  destruct c; cbn [creation_allowed].
  - by rewrite H.
  - destruct Hmode as [|Hlast]; [done|]. rewrite Hlast in H. by rewrite H.
  - destruct Hmode as [|Hlast]; [done|]. rewrite Hlast in H. by rewrite H.
Qed.

Lemma get_ti_instance_missing_witness :
  _get_ti Demo.succeeding Demo.op_t1 (-1) (Some "manual_1") None create_False Demo.world
  = (Demo.world, inl (TaskInstanceNotFound "W" "t1" (-1) (Some "manual_1"))) /\
  _get_ti Demo.succeeding Demo.op_t1 (-1) (Some "manual_1") None create_memory
    (mk_world [Demo.manual_1] [] [] ∅ false [] false None 0)
  = (mk_world [Demo.manual_1] [] [] ∅ false [] false None 0,
     inl (ValueError "Cannot create TaskInstance for W because the Dag is not serialized.")).
Proof.
  split.
  - apply (get_ti_instance_missing Demo.succeeding Demo.op_t1 Demo.W (-1) "manual_1" None
             create_False Demo.manual_1 None Demo.world).
    + reflexivity.
    + cbn. repeat constructor.
    + right. split; [reflexivity | lia].
    + discriminate.
    + reflexivity.
    + reflexivity.
    + by left.
  - apply (get_ti_instance_missing Demo.succeeding Demo.op_t1 Demo.W (-1) "manual_1" None
             create_memory Demo.manual_1 None
             (mk_world [Demo.manual_1] [] [] ∅ false [] false None 0)).
    + reflexivity.
    + cbn. repeat constructor.
    + right. split; [reflexivity | lia].
    + discriminate.
    + reflexivity.
    + reflexivity.
    + by right.
Defined.




Lemma no_run_with_unmatched_id (P : Platform) (d : string) (id : option string) (w : World) :
  store_ok w ->
  (forall value, id = Some value -> value ≠ "" -> no_run_matches P d value (dag_runs w)) ->
  forall r, r ∈ dag_runs w -> dr_dag_id r = d -> dr_run_id r ≠ id.
Proof.
  intros [Hids _] Hno r Hr Hd Heq.
  destruct (Hids r Hr) as (s & Hs & Hne). rewrite Hs in Heq. subst id.
  destruct (Hno s eq_refl Hne r Hr Hd) as [Hcontra _]. done.
Qed.

(** X10. [_get_ti] in creation mode "memory", as [task_render] calls it, on
    a store that keeps its integrity: when the identifier is absent or
    denotes no run, neither the run table nor the instance table changes,
    whatever the outcome. The run and the instance exist in memory only. *)
Theorem get_ti_memory_leaves_store (P : Platform) (task : Operator) (map_index : Z)
    (id pool : option string) (w : World) :
  store_ok w ->
  (forall dag value, op_dag task = Some dag -> id = Some value -> value ≠ "" ->
     no_run_matches P (dag_id dag) value (dag_runs w)) ->
  dag_runs (_get_ti P task map_index id pool create_memory w).1 = dag_runs w /\
  task_instances (_get_ti P task map_index id pool create_memory w).1 = task_instances w.
Proof.
  intros Hok Hno.
  destruct (get_ti_cases P task map_index id pool create_memory w)
    as [[e ->] | (dag & Hdag & _ & _ & _ & ->)]; [done|].
  specialize (Hno dag).
  assert (Hkey : forall r, r ∈ dag_runs w -> dr_dag_id r = dag_id dag -> dr_run_id r ≠ id).
  { apply (no_run_with_unmatched_id P); [done|]. intros value. by apply Hno. }
  unfold mbind, M_bind, bind.
  destruct (get_dag_run_cases P dag create_memory id w)
    as [(_ & ? & _) | [(value & r & ld & -> & Hne & Hf & H)
       | [(value & -> & Hne & ? & _) | (_ & ld & _ & H)]]]; try done.
  - exfalso. rewrite (fetch_no_match P _ _ _ (Hno value Hdag eq_refl Hne)) in Hf. done.
  - rewrite H, create_dag_run_memory.
    set (w1 := match ld with Some _ => w | None => _ end).
    set (dr := mk_dagrun _ _ _ _ _ _ _ _ _ _).
    assert (Hw1 : dag_runs w1 = dag_runs w /\ task_instances w1 = task_instances w)
      by (unfold w1; by destruct ld).
    destruct Hw1 as [Hruns Htis].
    pose proof (find_or_create_ti_cases task dag map_index id pool create_memory dr w1) as Hc.
    cbv zeta in Hc.
    assert (Hnone : List.find (ti_matches (dr_dag_id dr) (dr_run_id dr) (task_id task)
                                 map_index) (task_instances w1) = None).
    { apply find_all_false. intros row Hrow. apply bool_decide_eq_false.
      intros (Hd & Hr & _). rewrite Htis in Hrow.
      destruct Hok as [_ Hfk]. destruct (Hfk row Hrow) as (r & Hin & Hrd & Hrr).
      apply (Hkey r Hin); cbn in *; congruence. }
    rewrite Hnone in Hc.
    assert (Hout : existsb (same_run dr) (dag_runs w1) = false).
    { apply not_true_is_false. intros Hex. apply existsb_exists in Hex as (r & Hin & Hm).
      apply bool_decide_eq_true in Hm as [Hd Hr]. rewrite Hruns in Hin.
      apply list_elem_of_In in Hin. by apply (Hkey r Hin). }
    destruct (last _) as [v|]; rewrite Hc; [rewrite Hout|]; done.
Qed.

Lemma get_ti_memory_leaves_store_witness :
  dag_runs (_get_ti Demo.succeeding Demo.op_t1 (-1) (Some "2031-05-05") None create_memory
              Demo.world).1 = dag_runs Demo.world /\
  task_instances (_get_ti Demo.succeeding Demo.op_t1 (-1) (Some "2031-05-05") None
                    create_memory Demo.world).1 = task_instances Demo.world.
Proof.
  apply (get_ti_memory_leaves_store Demo.succeeding Demo.op_t1 (-1) (Some "2031-05-05") None
           Demo.world).
  - split.
    + intros r Hr. apply list_elem_of_singleton in Hr as ->. exists "manual_1". by split.
    + intros ti Hti. by apply elem_of_nil in Hti.
  - intros dag value _ [= <-] _ r Hr _. apply list_elem_of_singleton in Hr as ->.
    split; [discriminate|]. intros t Ht. discriminate Ht.
Defined.

(** ** The set-up and the clean-up of [task_test] *)

Lemma same_settings_refl w : same_settings w w.
Proof. by unfold same_settings. Qed.

Lemma same_settings_trans w1 w2 w3 :
  same_settings w1 w2 -> same_settings w2 w3 -> same_settings w1 w3.
Proof. unfold same_settings. intros H1 H2. destruct_and!. repeat split; congruence. Qed.

Lemma get_ti_same_settings (P : Platform) task map_index id pool c w :
  same_settings w (_get_ti P task map_index id pool c w).1.
Proof.
  destruct (get_ti_cases P task map_index id pool c w)
    as [[e ->] | (dag & _ & _ & _ & _ & ->)]; [apply same_settings_refl|].
  unfold mbind, M_bind, bind.
  assert (Hrun : same_settings w (_get_dag_run P dag c id w).1).
  { destruct (get_dag_run_cases P dag c id w)
      as [(_ & _ & H) | [(value & r & ld & _ & _ & _ & H)
         | [(value & _ & _ & _ & _ & H) | (Hc & ld & _ & H)]]];
      rewrite H; try apply same_settings_refl.
    by destruct (create_dag_run_returns P dag c id ld w Hc) as (dr & w1 & -> & Hset & _). }
  destruct (_get_dag_run P dag c id w) as [w1 [e|[dr cr]]]; [done|]. cbn [fst] in Hrun.
  destruct (find_or_create_ti_frame task dag map_index id pool c dr w1) as (_ & Hset & _).
  destruct (find_or_create_ti _ _ _ _ _ _ _ _) as [w2 [e|ti]];
    by apply (same_settings_trans _ w1).
Qed.

(** [task_test_setup] is the set-up of the logging and of the environment,
    then the instance. *)
Lemma task_test_setup_run (P : Platform) (args : Args) (dag : option DAG) (w : World) :
  let already := scan_handlers (task_logger_handlers w) false in
  let w0 := if negb already then set_propagate true (set_mask_secrets true w)
            else set_mask_secrets true w in
  task_test_setup P args dag w
  = task_test_instance P args dag already (merge_env_vars (args_env_vars args) w0).1.
Proof.
  intros already w0. unfold task_test_setup, mbind, M_bind.
  unfold bind at 1, modify at 1. unfold bind at 1, get_world at 1. cbv zeta.
  change (scan_handlers (task_logger_handlers (set_mask_secrets true w)) false) with already.
  unfold bind at 1. rewrite when_modify. fold w0.
  destruct (merge_env_vars_returns (args_env_vars args) w0) as (w1 & Hmerge & _).
  rewrite (bind_returns _ _ _ _ _ Hmerge), Hmerge. reflexivity.
Qed.

(** Where [task_test_instance] ends: in the world it started in, or in the
    world a call of [_get_ti] in mode "db" left, with that call's instance. *)
Lemma task_test_instance_cases (P : Platform) (args : Args) (dag : option DAG)
    (already : bool) (w : World) :
  (exists e, task_test_instance P args dag already w = (w, inl e)) \/
  (exists task,
     (forall d, dag = Some d -> op_dag task = Some d) /\
     task_test_instance P args dag already w =
     match _get_ti P task (args_map_index args) (args_logical_date_or_run_id args) None
             create_db w with
     | (w', inr (ti, cr)) => (w', inr (already, ti, cr))
     | (w', inl e) => (w', inl e)
     end).
Proof.
  remember (task_test_instance P args dag already w) as res eqn:Hres.
  unfold task_test_instance, mbind, M_bind in Hres.
  assert (Hdag : (exists e, (match dag with
                             | Some d => ret d
                             | None => lift_result (get_dag P (args_bundle_name args)
                                                      (args_dag_id args))
                             end : M DAG) w = (w, inl e)) \/
                 (exists d, (forall d0, dag = Some d0 -> d = d0) /\
                            (match dag with
                             | Some d => ret d
                             | None => lift_result (get_dag P (args_bundle_name args)
                                                      (args_dag_id args))
                             end : M DAG) w = (w, inr d))).
  { destruct dag as [d|]; [right; exists d; split; [by intros ? [= ->]|done]|].
    unfold lift_result.
    destruct (get_dag P _ _) as [e|d]; [left; by exists e | right; by exists d]. }
  destruct Hdag as [[e He] | (d & Hsame & Hd)].
  { left. exists e. unfold bind at 1 in Hres. by rewrite He in Hres. }
  rewrite (bind_returns _ _ _ _ _ Hd) in Hres.
  unfold get_task at 1 in Hres.
  destruct (List.find _ (task_dict d)) as [td|]; [|left; eexists; rewrite Hres; reflexivity].
  unfold bind at 1, ret at 1 in Hres.
  set (task0 := mk_operator td (Some d)) in Hres.
  assert (Htask : (exists e, (if truthy (args_task_params args)
                     then bind (lift_result (json_loads P (default "" (args_task_params args))))
                            (fun passed_in_params =>
                               ret (with_params (dict_update (td_params (op_def task0))
                                                   passed_in_params) task0))
                     else ret task0) w = (w, inl e)) \/
                  (exists t, op_dag t = Some d /\
                     (if truthy (args_task_params args)
                     then bind (lift_result (json_loads P (default "" (args_task_params args))))
                            (fun passed_in_params =>
                               ret (with_params (dict_update (td_params (op_def task0))
                                                   passed_in_params) task0))
                     else ret task0) w = (w, inr t))).
  { destruct (truthy _); [|right; by exists task0]. unfold bind, lift_result.
    destruct (json_loads P _) as [e|ps]; [left; by eexists|].
    right. eexists. split; [|reflexivity]. reflexivity. }
  destruct Htask as [[e He] | (t & Hop & Ht)].
  { left. exists e. unfold bind at 1 in Hres. by rewrite He in Hres. }
  rewrite (bind_returns _ _ _ _ _ Ht) in Hres.
  unfold bind at 1 in Hres.
  assert (Hown : forall d0, dag = Some d0 -> op_dag t = Some d0)
    by (intros d0 Hd0; by rewrite Hop, (Hsame d0 Hd0)).
  destruct (bool_decide _ && _).
  - destruct (params_validate P _) as [e|]; [left; eexists; rewrite Hres; reflexivity|].
    right. exists t. split; [done|].
    unfold ret at 1 in Hres. unfold bind in Hres. rewrite Hres.
    destruct (_get_ti _ _ _ _ _ _ _) as [w' [e|[ti cr]]]; reflexivity.
  - right. exists t. split; [done|].
    unfold ret at 1 in Hres. unfold bind in Hres. rewrite Hres.
    destruct (_get_ti _ _ _ _ _ _ _) as [w' [e|[ti cr]]]; reflexivity.
Qed.

Lemma task_test_instance_same_settings (P : Platform) args dag already w :
  same_settings w (task_test_instance P args dag already w).1.
Proof.
  destruct (task_test_instance_cases P args dag already w) as [[e ->] | (task & _ & ->)];
    [apply same_settings_refl|].
  pose proof (get_ti_same_settings P task (args_map_index args)
                (args_logical_date_or_run_id args) None create_db w) as H.
  by destruct (_get_ti _ _ _ _ _ _ _) as [w' [e|[ti cr]]].
Qed.

(** X11. With environment overrides given, [task_test] reaches the task
    body, or fails before it, in an environment that has every override,
    the marker [AIRFLOW_TEST_MODE=True] unless an override sets that
    variable itself, and every other variable as it was. *)
Theorem task_test_environment_with_overrides (P : Platform) (args : Args)
    (dag : option DAG) (given : gmap string string) (w : World) (k : string) :
  args_env_vars args = Some given ->
  given ≠ ∅ ->
  environ (task_test_setup P args dag w).1 !! k =
  match given !! k with
  | Some v => Some v
  | None => if decide (k = "AIRFLOW_TEST_MODE") then Some "True" else environ w !! k
  end.
Proof.
  intros Hgiven Hne. rewrite task_test_setup_run. cbv zeta.
  destruct (task_test_instance_same_settings P args dag
              (scan_handlers (task_logger_handlers w) false)
              (merge_env_vars (args_env_vars args)
                 (if negb (scan_handlers (task_logger_handlers w) false)
                  then set_propagate true (set_mask_secrets true w)
                  else set_mask_secrets true w)).1) as (_ & -> & _).
  rewrite Hgiven, merge_env_vars_given by done. cbn [fst environ set_environ].
  assert (Henv : environ (if negb (scan_handlers (task_logger_handlers w) false)
                          then set_propagate true (set_mask_secrets true w)
                          else set_mask_secrets true w) = environ w)
    by (by destruct (negb _)).
  rewrite Henv, !lookup_union.
  destruct (given !! k) as [v|]; [by rewrite !union_Some_l|].
  rewrite (left_id_L None _). destruct (decide (k = "AIRFLOW_TEST_MODE")) as [->|Hk].
  - by rewrite lookup_singleton_eq, union_Some_l.
  - by rewrite lookup_singleton_ne, (left_id_L None _).
Qed.

Lemma task_test_environment_with_overrides_witness :
  environ (task_test_setup Demo.succeeding
             (mk_args None "W" "t1" (-1) None (Some {[ "TZ" := "UTC" ]}) None false)
             None Demo.world).1 !! "AIRFLOW_TEST_MODE" =
  match ({[ "TZ" := "UTC" ]} : gmap string string) !! "AIRFLOW_TEST_MODE" with
  | Some v => Some v
  | None => if decide ("AIRFLOW_TEST_MODE" = "AIRFLOW_TEST_MODE") then Some "True"
            else environ Demo.world !! "AIRFLOW_TEST_MODE"
  end.
Proof.
  apply (task_test_environment_with_overrides Demo.succeeding
           (mk_args None "W" "t1" (-1) None (Some {[ "TZ" := "UTC" ]}) None false)
           None {[ "TZ" := "UTC" ]} Demo.world "AIRFLOW_TEST_MODE").
  - reflexivity.
  - intros H. apply (f_equal (fun m : gmap string string => m !! "TZ")) in H.
    vm_compute in H. discriminate H.
Defined.

Lemma scan_handlers_any (handlers : list Handler) :
  scan_handlers handlers false = existsb is_stream_handler handlers.
Proof.
  induction handlers as [|h hs IH]; [done|]. simpl.
  destruct (is_stream_handler h) eqn:Hh; [done|]. simpl. rewrite <- IH.
  clear IH. destruct hs as [|h' hs]; [done|]. reflexivity.
Qed.

(** X12. When [task_test] is through with its set-up, whether the instance
    was obtained or not, secrets are masked in the logs, and the
    [airflow.task] logger propagates if none of its handlers is a stream
    handler and is as it was if one is. *)
Theorem task_test_setup_logging (P : Platform) (args : Args) (dag : option DAG) (w : World) :
  MASK_SECRETS_IN_LOGS (task_test_setup P args dag w).1 = true /\
  task_logger_propagate (task_test_setup P args dag w).1
  = (if existsb is_stream_handler (task_logger_handlers w)
     then task_logger_propagate w else true).
Proof.
  rewrite task_test_setup_run. cbv zeta. rewrite scan_handlers_any.
  set (already := existsb is_stream_handler (task_logger_handlers w)).
  set (w0 := if negb already then _ else _).
  destruct (task_test_instance_same_settings P args dag already
              (merge_env_vars (args_env_vars args) w0).1) as (_ & _ & -> & _ & -> & _).
  assert (Hmerge : MASK_SECRETS_IN_LOGS (merge_env_vars (args_env_vars args) w0).1
                   = MASK_SECRETS_IN_LOGS w0 /\
                   task_logger_propagate (merge_env_vars (args_env_vars args) w0).1
                   = task_logger_propagate w0).
  { unfold merge_env_vars. destruct (args_env_vars args) as [g|]; [|done].
    by destruct (bool_decide _). }
  destruct Hmerge as [-> ->]. unfold w0. by destruct already.
Qed.

(** X13. When the set-up of [task_test] fails (no such workflow or task,
    parameters that do not parse or validate, no instance), [task_test]
    raises that exception from the world the set-up left: the task body
    does not run and neither does the [finally] clause, so a logger that
    was made to propagate still does. *)
Theorem task_test_setup_failure_skips_cleanup (P : Platform) (args : Args)
    (dag : option DAG) (w : World) (e : exn) :
  (task_test_setup P args dag w).2 = inl e ->
  task_test P args dag w = ((task_test_setup P args dag w).1, inl e) /\
  task_logger_propagate (task_test P args dag w).1
  = (if existsb is_stream_handler (task_logger_handlers w)
     then task_logger_propagate w else true).
Proof.
  intros Hfail.
  assert (Hrun : task_test P args dag w = ((task_test_setup P args dag w).1, inl e)).
  { unfold task_test, mbind, M_bind, bind.
    destruct (task_test_setup P args dag w) as [w1 res]. cbn [fst snd] in *. by subst res. }
  split; [done|]. rewrite Hrun. cbn [fst].
  pose proof (task_test_setup_run P args dag w) as Hsetup. cbv zeta in Hsetup.
  rewrite Hsetup, scan_handlers_any.
  set (already := existsb is_stream_handler (task_logger_handlers w)).
  set (w0 := if negb already then _ else _).
  destruct (task_test_instance_same_settings P args dag already
              (merge_env_vars (args_env_vars args) w0).1) as (_ & _ & _ & _ & -> & _).
  assert (Hmerge : task_logger_propagate (merge_env_vars (args_env_vars args) w0).1
                   = task_logger_propagate w0).
  { unfold merge_env_vars. destruct (args_env_vars args) as [g|]; [|done].
    by destruct (bool_decide _). }
  rewrite Hmerge. unfold w0. by destruct already.
Qed.

Lemma task_test_setup_failure_skips_cleanup_witness :
  task_test Demo.succeeding (mk_args None "W" "no_such_task" (-1) None None None false)
    None Demo.world
  = ((task_test_setup Demo.succeeding
        (mk_args None "W" "no_such_task" (-1) None None None false) None Demo.world).1,
     inl (OtherError "TaskNotFound" "no_such_task")) /\
  task_logger_propagate
    (task_test Demo.succeeding (mk_args None "W" "no_such_task" (-1) None None None false)
       None Demo.world).1
  = (if existsb is_stream_handler (task_logger_handlers Demo.world)
     then task_logger_propagate Demo.world else true).
Proof.
  apply (task_test_setup_failure_skips_cleanup Demo.succeeding
           (mk_args None "W" "no_such_task" (-1) None None None false) None Demo.world
           (OtherError "TaskNotFound" "no_such_task")).
  vm_compute. reflexivity.
Defined.

(** Where a set-up that returns has been: the instance comes from a call of
    [_get_ti] in mode "db", made in a world with the store of the start. *)
Lemma task_test_setup_returns_inv (P : Platform) args dag w w_pre already ti cr :
  task_test_setup P args dag w = (w_pre, inr (already, ti, cr)) ->
  already = existsb is_stream_handler (task_logger_handlers w) /\
  exists task w1,
    (forall d, dag = Some d -> op_dag task = Some d) /\
    dag_runs w1 = dag_runs w /\ task_instances w1 = task_instances w /\
    _get_ti P task (args_map_index args) (args_logical_date_or_run_id args) None create_db w1
    = (w_pre, inr (ti, cr)).
Proof.
  rewrite task_test_setup_run. cbv zeta. rewrite scan_handlers_any.
  set (already0 := existsb is_stream_handler (task_logger_handlers w)).
  set (w0 := if negb already0 then _ else _).
  set (w1 := (merge_env_vars (args_env_vars args) w0).1).
  assert (Hw1 : dag_runs w1 = dag_runs w /\ task_instances w1 = task_instances w).
  { unfold w1, merge_env_vars. destruct (args_env_vars args) as [g|];
      [destruct (bool_decide _)|]; unfold w0; by destruct (negb already0). }
  intros Hsetup.
  destruct (task_test_instance_cases P args dag already0 w1) as [[e He] | (task & Hown & He)];
    rewrite He in Hsetup; [done|].
  destruct (_get_ti P task _ _ _ _ w1) as [w' [e|[ti' cr']]] eqn:Hti; [done|].
  injection Hsetup as -> -> -> ->. split; [done|]. exists task, w1. by destruct Hw1.
Qed.

(** X14. After a set-up that returned, however the task body ends, the
    [finally] clause leaves the [airflow.task] logger not propagating when
    none of its handlers is a stream handler, whatever the setting was
    before [task_test] began; with a stream handler the setting is the one
    the body left. *)
Theorem task_test_resets_log_propagation (P : Platform) (args : Args) (dag : option DAG)
    (w w_pre : World) (already : bool) (ti : TaskInstance) (cr : bool) :
  task_test_setup P args dag w = (w_pre, inr (already, ti, cr)) ->
  task_logger_propagate (task_test P args dag w).1
  = (if existsb is_stream_handler (task_logger_handlers w)
     then task_logger_propagate (task_test_body P args ti w_pre).1
     else false).
Proof.
  intros Hsetup.
  destruct (task_test_setup_returns_inv P _ _ _ _ _ _ _ Hsetup) as [-> _].
  unfold task_test, mbind, M_bind. rewrite (bind_returns _ _ _ _ _ Hsetup).
  cbv beta iota. unfold try_finally.
  destruct (task_test_body P args ti w_pre) as [w_body outcome]. cbn [fst].
  unfold task_test_cleanup, mbind, M_bind. unfold bind at 1. rewrite when_modify.
  unfold when, session_delete, modify, ret, raise.
  destruct (existsb _ _), cr, (ti_dag_run ti); reflexivity.
Qed.

Lemma task_test_resets_log_propagation_witness :
  task_logger_propagate (Demo2.propagating_world) = true /\
  task_logger_propagate
    (task_test Demo.raising Demo.test_args None Demo2.propagating_world).1
  = (if existsb is_stream_handler (task_logger_handlers Demo2.propagating_world)
     then task_logger_propagate
            (task_test_body Demo.raising Demo.test_args Demo2.prepared_instance
               Demo2.prepared_world).1
     else false).
Proof.
  split; [reflexivity|].
  apply (task_test_resets_log_propagation Demo.raising Demo.test_args None
           Demo2.propagating_world Demo2.prepared_world false Demo2.prepared_instance true).
  vm_compute. reflexivity.
Defined.



(** ** The reading commands *)



Lemma has_mapped_iff (tis : list TaskInstance) :
  has_mapped tis = true <-> exists ti, ti ∈ tis /\ 0 <= ti_map_index ti.
Proof.
  unfold has_mapped. rewrite existsb_exists. split.
  - intros (ti & Hin & Hm). exists ti. split; [by apply list_elem_of_In | lia].
  - intros (ti & Hin & Hm). exists ti. split; [by apply list_elem_of_In | lia].
Qed.

(** X17. The table [task_states_for_dag_run] hands to the console has one
    row for each instance of the run, in the order of the instances, and
    all rows have the same columns: the six fixed ones, followed by
    [map_index] exactly when some instance of the run has a map index of 0
    or more. The command changes nothing. *)
Theorem task_states_for_dag_run_rows (P : Platform)
    (start_date end_date : TaskInstance -> option datetime) (d value : string)
    (w w' : World) (rows : list (list (string * option string))) :
  task_states_for_dag_run P start_date end_date d value w = (w', inr rows) ->
  w' = w /\
  exists dr tis,
    dr ∈ dag_runs w /\ dr_dag_id dr = d /\
    tis = List.filter (fun ti => bool_decide (ti_dag_id ti = dr_dag_id dr /\
                                              ti_run_id ti = dr_run_id dr))
            (task_instances w) /\
    rows = map (format_task_instance start_date end_date dr (has_mapped tis)) tis /\
    length rows = length tis /\
    (forall row, row ∈ rows ->
       row.*1 = (["dag_id"; "logical_date"; "task_id"; "state"; "start_date"; "end_date"]
                 ++ (if has_mapped tis then ["map_index"] else []))%list) /\
    (has_mapped tis = true <-> exists ti, ti ∈ tis /\ 0 <= ti_map_index ti).
Proof.
  unfold task_states_for_dag_run, mbind, M_bind.
  destruct (fetch_result P d value w) as (r & ld & Hf & _).
  rewrite (bind_returns _ _ _ _ _ Hf).
  destruct r as [dr|]; [|done].
  unfold dag_run_task_instances. unfold_M. intros [= <- <-]. split; [done|].
  destruct (fetch_found P d value w dr ld) as (Hin & Hd & _); [by rewrite Hf|].
  eexists dr, _. do 3 (split; [done|]). split; [done|].
  split; [by rewrite length_map|]. split; [|apply has_mapped_iff].
  intros row Hrow. apply list_elem_of_In, in_map_iff in Hrow as (ti & <- & _).
  unfold format_task_instance. by destruct (has_mapped _).
Qed.

Lemma task_states_for_dag_run_rows_witness :
  Demo2.listed_world = Demo2.listed_world /\
  exists dr tis,
    dr ∈ dag_runs Demo2.listed_world /\ dr_dag_id dr = "W" /\
    tis = List.filter (fun ti => bool_decide (ti_dag_id ti = dr_dag_id dr /\
                                              ti_run_id ti = dr_run_id dr))
            (task_instances Demo2.listed_world) /\
    [[("dag_id", Some "W"); ("logical_date", Some "2024-01-01T00:00:00+00:00");
      ("task_id", Some "m1"); ("state", Some "success"); ("start_date", Some "");
      ("end_date", Some ""); ("map_index", Some "0")];
     [("dag_id", Some "W"); ("logical_date", Some "2024-01-01T00:00:00+00:00");
      ("task_id", Some "t1"); ("state", None); ("start_date", Some "");
      ("end_date", Some ""); ("map_index", Some "")];
     [("dag_id", Some "W"); ("logical_date", Some "2024-01-01T00:00:00+00:00");
      ("task_id", Some "m1"); ("state", Some "failed"); ("start_date", Some "");
      ("end_date", Some ""); ("map_index", Some "1")]]
    = map (format_task_instance Demo2.no_dates Demo2.no_dates dr (has_mapped tis)) tis /\
    length [[("dag_id", Some "W"); ("logical_date", Some "2024-01-01T00:00:00+00:00");
      ("task_id", Some "m1"); ("state", Some "success"); ("start_date", Some "");
      ("end_date", Some ""); ("map_index", Some "0")];
     [("dag_id", Some "W"); ("logical_date", Some "2024-01-01T00:00:00+00:00");
      ("task_id", Some "t1"); ("state", None); ("start_date", Some "");
      ("end_date", Some ""); ("map_index", Some "")];
     [("dag_id", Some "W"); ("logical_date", Some "2024-01-01T00:00:00+00:00");
      ("task_id", Some "m1"); ("state", Some "failed"); ("start_date", Some "");
      ("end_date", Some ""); ("map_index", Some "1")]] = length tis /\
    (forall row, row ∈ [[("dag_id", Some "W"); ("logical_date", Some "2024-01-01T00:00:00+00:00");
      ("task_id", Some "m1"); ("state", Some "success"); ("start_date", Some "");
      ("end_date", Some ""); ("map_index", Some "0")];
     [("dag_id", Some "W"); ("logical_date", Some "2024-01-01T00:00:00+00:00");
      ("task_id", Some "t1"); ("state", None); ("start_date", Some "");
      ("end_date", Some ""); ("map_index", Some "")];
     [("dag_id", Some "W"); ("logical_date", Some "2024-01-01T00:00:00+00:00");
      ("task_id", Some "m1"); ("state", Some "failed"); ("start_date", Some "");
      ("end_date", Some ""); ("map_index", Some "1")]] ->
       row.*1 = (["dag_id"; "logical_date"; "task_id"; "state"; "start_date"; "end_date"]
                 ++ (if has_mapped tis then ["map_index"] else []))%list) /\
    (has_mapped tis = true <-> exists ti, ti ∈ tis /\ 0 <= ti_map_index ti).
Proof.
  apply (task_states_for_dag_run_rows Demo.succeeding Demo2.no_dates Demo2.no_dates "W"
           "manual_1" Demo2.listed_world Demo2.listed_world).
  vm_compute. reflexivity.
Defined.







Lemma insert_sorted_perm (s : string) (l : list string) : insert_sorted s l ≡ₚ s :: l.
Proof.
  induction l as [|x l IH]; simpl; [done|].
  destruct (String.leb s x); [done|]. rewrite IH. apply Permutation_swap.
Qed.

Lemma insert_sorted_sorted (s : string) (l : list string) :
  Sorted (fun a b => String.leb a b = true) l ->
  Sorted (fun a b => String.leb a b = true) (insert_sorted s l).
Proof.
  induction l as [|x l IH]; intros Hl; simpl.
  - by repeat constructor.
  - destruct (String.leb s x) eqn:Hsx.
    + constructor; [done|]. by constructor.
    + apply Sorted_inv in Hl as [Hl Hhd]. constructor; [by apply IH|].
      assert (Hxs : String.leb x s = true).
      { destruct (String.leb_total s x) as [H|H]; [congruence|done]. }
      destruct l as [|y l]; simpl; [by constructor|].
      destruct (String.leb s y); constructor; [done|].
      by apply HdRel_inv in Hhd.
Qed.

Lemma sorted_spec (l : list string) :
  sorted l ≡ₚ l /\ Sorted (fun a b => String.leb a b = true) (sorted l).
Proof.
  unfold sorted. induction l as [|x l [IHp IHs]]; simpl; [by split; [|constructor]|].
  split; [by rewrite insert_sorted_perm, IHp | by apply insert_sorted_sorted].
Qed.

(** X20. What [task_list] prints is the task identifiers of the workflow,
    each as often as the workflow has it, in ascending order of code
    points, joined by newlines; the workflow is the one passed in, or the
    one [get_dag] finds. The command changes nothing. *)
Theorem task_list_prints_sorted_task_ids (P : Platform) (args : Args) (dag : option DAG)
    (w w' : World) (text : string) :
  task_list P args dag w = (w', inr text) ->
  exists d tasks,
    (dag = Some d \/
     dag = None /\ get_dag P (args_bundle_name args) (args_dag_id args) = inr d) /\
    w' = w /\ text = join newline tasks /\
    tasks ≡ₚ (td_task_id <$> task_dict d) /\
    Sorted (fun a b => String.leb a b = true) tasks.
Proof.
  unfold task_list, mbind, M_bind. unfold bind at 1.
  destruct dag as [d|].
  - unfold ret. intros [= <- <-]. exists d, (sorted (td_task_id <$> task_dict d)).
    split; [by left|]. do 2 (split; [done|]). apply sorted_spec.
  - unfold lift_result. destruct (get_dag P _ _) as [e|d] eqn:Hd; [done|].
    unfold ret. intros [= <- <-]. exists d, (sorted (td_task_id <$> task_dict d)).
    split; [by right|]. do 2 (split; [done|]). apply sorted_spec.
Qed.

Lemma task_list_prints_sorted_task_ids_witness :
  exists d tasks,
    ((None : option DAG) = Some d \/
     (None : option DAG) = None /\ get_dag Demo.succeeding (args_bundle_name Demo.test_args)
                      (args_dag_id Demo.test_args) = inr d) /\
    Demo.world = Demo.world /\ "m1" +:+ newline +:+ "t1" = join newline tasks /\
    tasks ≡ₚ (td_task_id <$> task_dict d) /\
    Sorted (fun a b => String.leb a b = true) tasks.
Proof.
  apply (task_list_prints_sorted_task_ids Demo.succeeding Demo.test_args None Demo.world
           Demo.world ("m1" +:+ newline +:+ "t1")).
  vm_compute. reflexivity.
Defined.
